(** * AITB data adapter: price/candle resolution, backfill and bot supervision

    A shallow embedding of [services/dashboard/data_adapter.py]:
    the [BotManager] state machine fed by heartbeats and control requests,
    and the [DataAdapter] endpoints that cascade from InfluxDB to Binance.

    Conventions.
    - A [datetime] is its number of microseconds since the epoch, a [Z]
      (microseconds are the resolution of Python's [datetime]).  For a
      [timedelta] of [d] microseconds and an integer [s],
      [d.total_seconds() <= s] holds exactly when [d <= s * 10^6]: the float
      quotient [d / 10^6] is correctly rounded and [s] is representable, and
      the nearest other quotient is [10^-6] away.
    - A Python [float] is a binary64 value, [PrimFloat.float]; the code only
      carries such values around.
    - InfluxDB and Binance are outside the process: the store is a type class
      of query and write operations over an abstract store state, the
      exchange a record of response functions. *)

From Stdlib Require Import ZArith String List Bool Lia PrimFloat DecimalString.
From Stdlib Require FloatAxioms SpecFloat FloatOps.
From stdpp Require Import gmap strings list sorting.
Import ListNotations.

Local Open Scope string_scope.
Local Open Scope Z_scope.

(** ** Python values shared by both halves *)

Definition datetime := Z.

Definition microseconds_per_second : Z := 1000000.

(** [(later - earlier).total_seconds() > seconds] *)
Definition total_seconds_gt (later earlier : datetime) (seconds : Z) : bool :=
  seconds * microseconds_per_second <? later - earlier.

(** [(later - earlier).total_seconds() <= seconds] *)
Definition total_seconds_le (later earlier : datetime) (seconds : Z) : bool :=
  later - earlier <=? seconds * microseconds_per_second.

(** Truthiness of an [Optional[str]]: [None] and [""] are falsy. *)
Definition truthy_str (o : option string) : bool :=
  match o with
  | Some s => negb (String.eqb s "")
  | None => false
  end.

(** Truthiness of a list: the empty list is falsy. *)
Definition truthy_list {A} (l : list A) : bool :=
  match l with
  | [] => false
  | _ :: _ => true
  end.

(** [str(n)] for an integer. *)
Definition str_of_Z (n : Z) : string :=
  NilZero.string_of_int (Z.to_int n).

(** [needle in haystack] for strings, as a proposition. *)
Definition substring_of (needle haystack : string) : Prop :=
  exists pre post, haystack = pre +:+ needle +:+ post.

(** An opaque position record, [Dict[str, Any]], passed through. *)
Definition position := list (string * string).

(** What an endpoint gives back: its response, or an [HTTPException]. *)
Inductive http (A : Type) : Type :=
| Response (a : A)
| HTTPException (status_code : Z) (detail : string).
Arguments Response {A} a.
Arguments HTTPException {A} status_code detail.

(** ** Pydantic models of the bot endpoints *)

Module BotControlRequest.
Record t := mk {
  action : string;
  symbol : option string;
  tf : option string
}.

(** The JSON body of a control request: a key may be absent ([None]),
    present with [null] ([Some None]) or present with a string. *)
Record body := mk_body {
  body_action : string;
  body_symbol : option (option string);
  body_tf : option (option string)
}.

(** [symbol: Optional[str] = Field("BTCUSDT")], [tf: Optional[str] =
    Field("15m")]: the default fills an absent key only. *)
Definition of_body (b : body) : t :=
  {| action := body_action b;
     symbol := match body_symbol b with Some v => v | None => Some "BTCUSDT" end;
     tf := match body_tf b with Some v => v | None => Some "15m" end |}.
End BotControlRequest.

Module BotSignal.
Record t := mk {
  timestamp : string;
  signal : string;
  confidence : float;
  symbol : string;
  price : float;
  reason : string
}.
End BotSignal.

Module BotStatus.
Record t := mk {
  state : string;
  lastHeartbeatTs : datetime;
  currentSymbol : string;
  tf : string;
  openPositions : list position;
  pnl : float;
  lastSignals : list BotSignal.t
}.

(** [status.state = s] *)
Definition set_state (s : string) (st : t) : t :=
  {| state := s;
     lastHeartbeatTs := lastHeartbeatTs st;
     currentSymbol := currentSymbol st;
     tf := tf st;
     openPositions := openPositions st;
     pnl := pnl st;
     lastSignals := lastSignals st |}.
End BotStatus.

Module BotHeartbeat.
Record t := mk {
  timestamp : string;
  state : string;
  symbol : string;
  tf : string;
  lastSignal : option BotSignal.t;
  openPositions : list position;
  pnl : float
}.
End BotHeartbeat.

(** ** class BotManager *)

Module BotManager.
Record t := mk {
  state : string;
  current_symbol : string;
  current_tf : string;
  last_heartbeat : datetime;
  open_positions : list position;
  pnl : float;
  last_signals : list BotSignal.t
}.

(** [__init__], created at clock reading [now]. *)
Definition init (now : datetime) : t :=
  {| state := "stopped";
     current_symbol := "BTCUSDT";
     current_tf := "15m";
     last_heartbeat := now;
     open_positions := [];
     pnl := 0%float;
     last_signals := [] |}.

(** [update_heartbeat]; [now] is the clock reading of its first line. *)
Definition update_heartbeat (now : datetime) (heartbeat : BotHeartbeat.t)
    (self : t) : t :=
  {| last_heartbeat := now;
     state := BotHeartbeat.state heartbeat;
     current_symbol := BotHeartbeat.symbol heartbeat;
     current_tf := BotHeartbeat.tf heartbeat;
     open_positions := BotHeartbeat.openPositions heartbeat;
     pnl := BotHeartbeat.pnl heartbeat;
     last_signals :=
       match BotHeartbeat.lastSignal heartbeat with
       | Some s => take 3 (s :: last_signals self)
       | None => last_signals self
       end |}.

(** [set_state] *)
Definition set_state (action : string) (symbol tf : option string)
    (self : t) : t :=
  let state' :=
    if String.eqb action "start" then "running"
    else if String.eqb action "pause" then "paused"
    else if String.eqb action "stop" then "stopped"
    else state self in
  let open_positions' :=
    if String.eqb action "start" then open_positions self
    else if String.eqb action "pause" then open_positions self
    else if String.eqb action "stop" then []
    else open_positions self in
  {| state := state';
     current_symbol :=
       match symbol with
       | Some s => if truthy_str symbol then s else current_symbol self
       | None => current_symbol self
       end;
     current_tf :=
       match tf with
       | Some s => if truthy_str tf then s else current_tf self
       | None => current_tf self
       end;
     last_heartbeat := last_heartbeat self;
     open_positions := open_positions';
     pnl := pnl self;
     last_signals := last_signals self |}.

(** [get_status] *)
Definition get_status (self : t) : BotStatus.t :=
  {| BotStatus.state := state self;
     BotStatus.lastHeartbeatTs := last_heartbeat self;
     BotStatus.currentSymbol := current_symbol self;
     BotStatus.tf := current_tf self;
     BotStatus.openPositions := open_positions self;
     BotStatus.pnl := pnl self;
     BotStatus.lastSignals := last_signals self |}.

(** [is_heartbeat_stale] *)
Definition is_heartbeat_stale (now : datetime) (max_age_seconds : Z)
    (self : t) : bool :=
  total_seconds_gt now (last_heartbeat self) max_age_seconds.

(** [bot_manager.state = s] *)
Definition assign_state (s : string) (self : t) : t :=
  {| state := s;
     current_symbol := current_symbol self;
     current_tf := current_tf self;
     last_heartbeat := last_heartbeat self;
     open_positions := open_positions self;
     pnl := pnl self;
     last_signals := last_signals self |}.
End BotManager.

(** ** Bot endpoints: each takes the global [bot_manager] and gives it back *)

Module ControlResponse.
Record t := mk {
  status : string;
  message : string;
  newState : string;
  symbol : string;
  tf : string;
  timestamp : datetime
}.
End ControlResponse.

Definition valid_action (action : string) : bool :=
  existsb (String.eqb action) ["start"; "pause"; "stop"].

(** [POST /bot/control] *)
Definition bot_control (now : datetime) (request : BotControlRequest.t)
    (bot_manager : BotManager.t) : http ControlResponse.t * BotManager.t :=
  if negb (valid_action (BotControlRequest.action request)) then
    (HTTPException 400 ("Invalid action: " +:+ BotControlRequest.action request),
     bot_manager)
  else
    let bot_manager' :=
      BotManager.set_state (BotControlRequest.action request)
        (BotControlRequest.symbol request) (BotControlRequest.tf request)
        bot_manager in
    (Response
       {| ControlResponse.status := "success";
          ControlResponse.message :=
            "Bot " +:+ BotControlRequest.action request +:+ " command executed";
          ControlResponse.newState := BotManager.state bot_manager';
          ControlResponse.symbol := BotManager.current_symbol bot_manager';
          ControlResponse.tf := BotManager.current_tf bot_manager';
          ControlResponse.timestamp := now |},
     bot_manager').

(** [GET /bot/status]; [now] is the clock reading of [is_heartbeat_stale()],
    called with its default [max_age_seconds = 60]. *)
Definition bot_status (now : datetime) (bot_manager : BotManager.t)
    : http BotStatus.t * BotManager.t :=
  let status := BotManager.get_status bot_manager in
  if BotManager.is_heartbeat_stale now 60 bot_manager
     && String.eqb (BotManager.state bot_manager) "running"
  then
    (Response (BotStatus.set_state "disconnected" status),
     BotManager.assign_state "disconnected" bot_manager)
  else (Response status, bot_manager).

(** [POST /bot/heartbeat] *)
Definition bot_heartbeat (now : datetime) (heartbeat : BotHeartbeat.t)
    (bot_manager : BotManager.t) : http (string * string) * BotManager.t :=
  (Response ("success", "Heartbeat received"),
   BotManager.update_heartbeat now heartbeat bot_manager).

(** ** Outside the process: InfluxDB and Binance *)

(** What a call that may raise gives: its value, or the exception's text. *)
Inductive outcome (A : Type) : Type :=
| Returns (a : A)
| Raises (e : string).
Arguments Returns {A} a.
Arguments Raises {A} e.

(** A record of the [prices] query: [float(row.get_value())] and
    [row.get_time()]. *)
Module PriceRow.
Record t := mk {
  value : outcome float;
  time : datetime
}.
End PriceRow.

(** A pivoted record of the [candles] query: [int(row["_time"].timestamp())]
    in seconds, and the five fields, each possibly missing from the row. *)
Module CandleRow.
Record t := mk {
  time : Z;
  open : option float;
  high : option float;
  low : option float;
  close : option float;
  volume : option float
}.
End CandleRow.

(** One kline of Binance's [/klines] answer, already converted by [int] and
    [float]; an answer on which a conversion raises is a [Raises]. *)
Module Kline.
Record t := mk {
  open_time_ms : Z;
  open : float;
  high : float;
  low : float;
  close : float;
  volume : float
}.
End Kline.

(** Binance's [/ticker/price] answer. *)
Module Ticker.
Record t := mk {
  symbol : string;
  price : float
}.
End Ticker.

(** The candle dictionaries the adapter builds and returns. *)
Module Candle.
Record t := mk {
  timestamp : Z;
  open : float;
  high : float;
  low : float;
  close : float;
  volume : float;
  symbol : string;
  timeframe : string
}.
End Candle.

(** [Point("candles").tag(...).field(...).time(timestamp, WritePrecision.S)] *)
Module Point.
Record t := mk {
  measurement : string;
  tag_symbol : string;
  tag_timeframe : string;
  field_open : float;
  field_high : float;
  field_low : float;
  field_close : float;
  field_volume : float;
  time : Z
}.
End Point.

(** The InfluxDB client over a store state [S]: the three Flux queries of the
    adapter, each answering tables of records or raising, and the point
    write, which gives the store afterwards and the exception if it raised. *)
Class InfluxDB (S : Type) := {
  query_last_price : S -> string -> outcome (list (list PriceRow.t));
  query_candle_count : S -> string -> string -> Z -> outcome (list (list (outcome Z)));
  query_candles : S -> string -> string -> Z -> outcome (list (list CandleRow.t));
  write_points : S -> list Point.t -> S * option string
}.

(** The Binance REST API as seen through [self.session.get(...)],
    [raise_for_status()] and [json()]. *)
Record Binance := {
  ticker_price : string -> outcome Ticker.t;
  klines : string -> string -> Z -> outcome (list Kline.t)
}.

(** ** The process: store, trace of outside calls, log *)

Inductive call : Type :=
| QueryLastPrice (symbol : string)
| QueryCandleCount (symbol interval : string) (hours : Z)
| QueryCandles (symbol interval : string) (limit : Z)
| WritePoints (points : list Point.t)
| GetTickerPrice (symbol : string)
| GetKlines (symbol interval : string) (limit : Z).

Definition is_exchange_call (c : call) : bool :=
  match c with
  | GetTickerPrice _ | GetKlines _ _ _ => true
  | _ => false
  end.

(** How many of the calls went to the exchange. *)
Definition exchange_calls (cs : list call) : nat :=
  length (filter (fun c => is_exchange_call c = true) cs).

Inductive level : Type := INFO | WARNING | ERROR.

Record process (S : Type) := mk_process {
  influx : S;
  calls : list call;
  log : list (level * string)
}.
Arguments mk_process {S} influx calls log.
Arguments influx {S} p.
Arguments calls {S} p.
Arguments log {S} p.

(** Code that runs in the process. *)
Definition M (S A : Type) : Type := process S -> A * process S.

Definition ret {S A} (a : A) : M S A := fun p => (a, p).

Definition bind {S A B} (m : M S A) (k : A -> M S B) : M S B :=
  fun p => let (a, p') := m p in k a p'.

Notation "'let*' x ':=' c 'in' k" := (bind c (fun x => k))
  (at level 10, x name, c at level 100, k at level 200).
Notation "c ;; k" := (bind c (fun _ => k))
  (at level 100, k at level 200, right associativity).

Definition record_call {S} (c : call) : M S unit :=
  fun p => (tt, mk_process (influx p) (calls p ++ [c]) (log p)).

(** [logger.info], [logger.warning], [logger.error] *)
Definition logger {S} (l : level) (message : string) : M S unit :=
  fun p => (tt, mk_process (influx p) (calls p) (log p ++ [(l, message)])).

Definition read_store {S A} (f : S -> A) : M S A :=
  fun p => (f (influx p), p).

Definition update_store {S} (f : S -> S * option string) : M S (option string) :=
  fun p => let (s', e) := f (influx p) in
           (e, mk_process s' (calls p) (log p)).

(** [for table in result: for row in table.records: return row] *)
Definition first_record {A} (result : list (list A)) : option A :=
  head (concat result).

(** [len(l)] *)
Definition len {A} (l : list A) : Z := Z.of_nat (length l).

(** ** Response models of the data endpoints *)

(** [timestamp] is an ISO string in the code, written by [isoformat()] and
    read back by [fromisoformat]; here it is the [datetime] it stands for. *)
Module PriceResponse.
Record t := mk {
  symbol : string;
  price : float;
  timestamp : datetime;
  source : string
}.
End PriceResponse.

Module CandlesResponse.
Record t := mk {
  candles : list Candle.t;
  symbol : string;
  interval : string;
  count : Z;
  source : string
}.
End CandlesResponse.

Module BackfillRequest.
Record t := mk {
  symbol : string;
  interval : string;
  limit : Z
}.
End BackfillRequest.

Module BackfillResponse.
Record t := mk {
  symbol : string;
  interval : string;
  candlesWritten : Z;
  status : string;
  message : string
}.
End BackfillResponse.

(** ** class DataAdapter *)

Module DataAdapter.
(** Which of the two handles [init_influxdb] managed to create
    ([... is not None]). *)
Record t := mk {
  influx_client : bool;
  write_api : bool
}.
End DataAdapter.

Section Adapter.
Context {S : Type} `{InfluxDB S}.
Variable self : DataAdapter.t.
Variable binance : Binance.

(** [get_latest_price_from_influx] *)
Definition get_latest_price_from_influx (symbol : string)
    : M S (option PriceResponse.t) :=
  if negb (DataAdapter.influx_client self) then ret None
  else
    record_call (QueryLastPrice symbol) ;;
    let* result := read_store (fun s => query_last_price s symbol) in
    match result with
    | Raises e =>
        logger WARNING ("Error querying InfluxDB for " +:+ symbol +:+ ": " +:+ e) ;;
        ret None
    | Returns tables =>
        match first_record tables with
        | Some row =>
            match PriceRow.value row with
            | Returns v =>
                ret (Some {| PriceResponse.symbol := symbol;
                             PriceResponse.price := v;
                             PriceResponse.timestamp := PriceRow.time row;
                             PriceResponse.source := "influx" |})
            | Raises e =>
                logger WARNING
                  ("Error querying InfluxDB for " +:+ symbol +:+ ": " +:+ e) ;;
                ret None
            end
        | None => ret None
        end
    end.

(** [get_price_from_binance]; [now] stamps the answer. *)
Definition get_price_from_binance (now : datetime) (symbol : string)
    : M S (option PriceResponse.t) :=
  record_call (GetTickerPrice symbol) ;;
  match ticker_price binance symbol with
  | Returns data =>
      ret (Some {| PriceResponse.symbol := Ticker.symbol data;
                   PriceResponse.price := Ticker.price data;
                   PriceResponse.timestamp := now;
                   PriceResponse.source := "binance" |})
  | Raises e =>
      logger ERROR
        ("Error fetching price from Binance for " +:+ symbol +:+ ": " +:+ e) ;;
      ret None
  end.

Definition candle_of_kline (symbol interval : string) (kline : Kline.t)
    : Candle.t :=
  {| Candle.timestamp := Kline.open_time_ms kline / 1000;
     Candle.open := Kline.open kline;
     Candle.high := Kline.high kline;
     Candle.low := Kline.low kline;
     Candle.close := Kline.close kline;
     Candle.volume := Kline.volume kline;
     Candle.symbol := symbol;
     Candle.timeframe := interval |}.

(** [get_candles_from_binance] *)
Definition get_candles_from_binance (symbol interval : string) (limit : Z)
    : M S (list Candle.t) :=
  record_call (GetKlines symbol interval limit) ;;
  match klines binance symbol interval limit with
  | Returns ks => ret (map (candle_of_kline symbol interval) ks)
  | Raises e =>
      logger ERROR
        ("Error fetching candles from Binance for " +:+ symbol +:+ ": " +:+ e) ;;
      ret []
  end.

Definition point_of_candle (candle : Candle.t) : Point.t :=
  {| Point.measurement := "candles";
     Point.tag_symbol := Candle.symbol candle;
     Point.tag_timeframe := Candle.timeframe candle;
     Point.field_open := Candle.open candle;
     Point.field_high := Candle.high candle;
     Point.field_low := Candle.low candle;
     Point.field_close := Candle.close candle;
     Point.field_volume := Candle.volume candle;
     Point.time := Candle.timestamp candle |}.

(** The times a [datetime] can hold, in seconds since the epoch:
    0001-01-01T00:00:00Z and 9999-12-31T23:59:59Z. *)
Definition datetime_min_seconds : Z := -62135596800.
Definition datetime_max_seconds : Z := 253402300799.

(** [datetime.fromtimestamp(t, tz=timezone.utc)] for an integer [t]: it
    raises when [t] falls outside the years 1 to 9999.  Python words the
    error after the value (a [ValueError] naming the year, or an
    [OverflowError]); the text here stands for either.  A platform may refuse
    more than this range; that is not modelled. *)
Definition fromtimestamp (t : Z) : outcome datetime :=
  if (datetime_min_seconds <=? t) && (t <=? datetime_max_seconds)
  then Returns (t * microseconds_per_second)
  else Raises "timestamp out of range".

(** The loop that builds [points], one candle after the other: the first
    candle whose time [fromtimestamp] refuses ends it. *)
Fixpoint points_of_candles (candles : list Candle.t) : outcome (list Point.t) :=
  match candles with
  | [] => Returns []
  | candle :: rest =>
      match fromtimestamp (Candle.timestamp candle) with
      | Raises e => Raises e
      | Returns _ =>
          match points_of_candles rest with
          | Raises e => Raises e
          | Returns points => Returns (point_of_candle candle :: points)
          end
      end
  end.

(** [write_candles_to_influx]; the points are built inside the [try], so a
    candle time out of range is caught like a failed write, before any
    write is made. *)
Definition write_candles_to_influx (candles : list Candle.t) : M S Z :=
  if negb (DataAdapter.write_api self) || negb (truthy_list candles) then ret 0
  else
    match points_of_candles candles with
    | Raises e =>
        logger ERROR ("Error writing candles to InfluxDB: " +:+ e) ;;
        ret 0
    | Returns points =>
        record_call (WritePoints points) ;;
        let* raised := update_store (fun s => write_points s points) in
        match raised with
        | None =>
            logger INFO
              ("Written " +:+ str_of_Z (len points) +:+ " candles to InfluxDB") ;;
            ret (len points)
        | Some e =>
            logger ERROR ("Error writing candles to InfluxDB: " +:+ e) ;;
            ret 0
        end
    end.

(** [check_influx_candle_count] *)
Definition check_influx_candle_count (symbol interval : string) (hours : Z)
    : M S Z :=
  if negb (DataAdapter.influx_client self) then ret 0
  else
    record_call (QueryCandleCount symbol interval hours) ;;
    let* result := read_store (fun s => query_candle_count s symbol interval hours) in
    match result with
    | Raises e =>
        logger WARNING ("Error checking candle count in InfluxDB: " +:+ e) ;;
        ret 0
    | Returns tables =>
        match first_record tables with
        | Some (Returns n) => ret n
        | Some (Raises e) =>
            logger WARNING ("Error checking candle count in InfluxDB: " +:+ e) ;;
            ret 0
        | None => ret 0
        end
    end.

(** [float(row.get(field, 0))], where [field] is what the row holds.  The
    records of a query are [FluxRecord]s of [influxdb_client]: the class has
    [get_value()], [get_time()], its other [get_...()] accessors and item
    access [row[key]], and no method [get], so the attribute lookup raises
    [AttributeError] whatever the row holds. *)
Definition row_get (field : option float) : outcome float :=
  Raises "'FluxRecord' object has no attribute 'get'".

(** The dictionary appended for a row: [row["_time"]] is read by item
    access, then the five fields by [row.get], the first of which ends it. *)
Definition candle_of_row (symbol interval : string) (row : CandleRow.t)
    : outcome Candle.t :=
  let timestamp := CandleRow.time row in
  match row_get (CandleRow.open row) with
  | Raises e => Raises e
  | Returns open =>
      match row_get (CandleRow.high row) with
      | Raises e => Raises e
      | Returns high =>
          match row_get (CandleRow.low row) with
          | Raises e => Raises e
          | Returns low =>
              match row_get (CandleRow.close row) with
              | Raises e => Raises e
              | Returns close =>
                  match row_get (CandleRow.volume row) with
                  | Raises e => Raises e
                  | Returns volume =>
                      Returns {| Candle.timestamp := timestamp;
                                 Candle.open := open;
                                 Candle.high := high;
                                 Candle.low := low;
                                 Candle.close := close;
                                 Candle.volume := volume;
                                 Candle.symbol := symbol;
                                 Candle.timeframe := interval |}
                  end
              end
          end
      end
  end.

(** The two loops over the tables and their records: the first record that
    raises ends them. *)
Fixpoint candles_of_rows (symbol interval : string) (rows : list CandleRow.t)
    : outcome (list Candle.t) :=
  match rows with
  | [] => Returns []
  | row :: rest =>
      match candle_of_row symbol interval row with
      | Raises e => Raises e
      | Returns candle =>
          match candles_of_rows symbol interval rest with
          | Raises e => Raises e
          | Returns candles => Returns (candle :: candles)
          end
      end
  end.

(** [get_candles_from_influx] *)
Definition get_candles_from_influx (symbol interval : string) (limit : Z)
    : M S (list Candle.t) :=
  if negb (DataAdapter.influx_client self) then ret []
  else
    record_call (QueryCandles symbol interval limit) ;;
    let* result := read_store (fun s => query_candles s symbol interval limit) in
    match result with
    | Raises e =>
        logger WARNING
          ("Error retrieving candles from InfluxDB for " +:+ symbol +:+ " "
           +:+ interval +:+ ": " +:+ e) ;;
        ret []
    | Returns tables =>
        match candles_of_rows symbol interval (concat tables) with
        | Raises e =>
            logger WARNING
              ("Error retrieving candles from InfluxDB for " +:+ symbol +:+ " "
               +:+ interval +:+ ": " +:+ e) ;;
            ret []
        | Returns candles =>
            logger INFO
              ("Retrieved " +:+ str_of_Z (len candles)
               +:+ " candles from InfluxDB for " +:+ symbol +:+ " " +:+ interval) ;;
            ret candles
        end
    end.

(** ** Data endpoints *)

(** [GET /data/price]; [now] is the clock reading of the age check,
    [now_exchange] the later one that stamps a Binance answer.  The two
    adapter methods catch what they raise, so of the endpoint's handlers only
    the 404 it raises itself is ever taken. *)
Definition get_price (now now_exchange : datetime) (symbol : string)
    : M S (http PriceResponse.t) :=
  let fallback : M S (http PriceResponse.t) :=
    let* binance_price := get_price_from_binance now_exchange symbol in
    match binance_price with
    | None => ret (HTTPException 404 ("Price not found for symbol " +:+ symbol))
    | Some p => ret (Response p)
    end in
  let* influx_price := get_latest_price_from_influx symbol in
  match influx_price with
  | Some p =>
      if total_seconds_le now (PriceResponse.timestamp p) 300
      then ret (Response p)
      else fallback
  | None => fallback
  end.

(** [GET /chart/candles]; FastAPI has already refused a [limit] above 1000
    ([le=1000]), below that any integer reaches the body. *)
Definition get_chart_candles (symbol interval : string) (limit : Z)
    : M S (http CandlesResponse.t) :=
  let* candles := get_candles_from_influx symbol interval limit in
  if truthy_list candles && (Z.min 50 (limit / 2) <=? len candles) then
    ret (Response {| CandlesResponse.candles := candles;
                     CandlesResponse.symbol := symbol;
                     CandlesResponse.interval := interval;
                     CandlesResponse.count := len candles;
                     CandlesResponse.source := "influxdb" |})
  else
    logger INFO
      ("Insufficient InfluxDB data for " +:+ symbol +:+ " " +:+ interval
       +:+ ", fetching from Binance") ;;
    let* candles := get_candles_from_binance symbol interval limit in
    if truthy_list candles then
      write_candles_to_influx candles ;;
      logger INFO
        ("Stored " +:+ str_of_Z (len candles) +:+ " candles in InfluxDB for future use") ;;
      ret (Response {| CandlesResponse.candles := candles;
                       CandlesResponse.symbol := symbol;
                       CandlesResponse.interval := interval;
                       CandlesResponse.count := len candles;
                       CandlesResponse.source := "binance" |})
    else
      ret (HTTPException 404
             ("No candle data available for " +:+ symbol +:+ " " +:+ interval)).

(** [POST /data/backfill-candles] *)
Definition backfill_candles (request : BackfillRequest.t)
    : M S (http BackfillResponse.t) :=
  let* current_count :=
    check_influx_candle_count (BackfillRequest.symbol request)
      (BackfillRequest.interval request) 24 in
  let threshold := 100 in
  if threshold <=? current_count then
    ret (Response
           {| BackfillResponse.symbol := BackfillRequest.symbol request;
              BackfillResponse.interval := BackfillRequest.interval request;
              BackfillResponse.candlesWritten := 0;
              BackfillResponse.status := "skipped";
              BackfillResponse.message :=
                "Sufficient data exists (" +:+ str_of_Z current_count
                +:+ " candles >= " +:+ str_of_Z threshold +:+ ")" |})
  else
    let* candles :=
      get_candles_from_binance (BackfillRequest.symbol request)
        (BackfillRequest.interval request) (BackfillRequest.limit request) in
    if negb (truthy_list candles) then
      ret (Response
             {| BackfillResponse.symbol := BackfillRequest.symbol request;
                BackfillResponse.interval := BackfillRequest.interval request;
                BackfillResponse.candlesWritten := 0;
                BackfillResponse.status := "failed";
                BackfillResponse.message := "No candle data available from Binance" |})
    else
      let* written_count := write_candles_to_influx candles in
      ret (Response
             {| BackfillResponse.symbol := BackfillRequest.symbol request;
                BackfillResponse.interval := BackfillRequest.interval request;
                BackfillResponse.candlesWritten := written_count;
                BackfillResponse.status := "success";
                BackfillResponse.message :=
                  "Successfully backfilled " +:+ str_of_Z written_count
                  +:+ " candles" |}).
End Adapter.

(** ** An in-memory metrics store *)

(** The five fields of a candle point. *)
Module OHLCV.
Record t := mk {
  open : float;
  high : float;
  low : float;
  close : float;
  volume : float
}.
End OHLCV.

(** Modelled from the spec: the metrics store itself, an external InfluxDB
    that the adapter reaches only "through range queries and point writes"
    (sections 1 and 6).  A candle is "uniquely identified by (symbol,
    interval, openTime); the store enforces this as a natural key"
    (section 3), so candles are a finite map from that key to the fields and
    a write replaces the fields under its key; "no query ever raises for zero
    rows" (section 6).  [ms_now] is the store's clock, against which the
    look-back windows are taken; [ms_fault], when set, makes every request
    raise (the store is unreachable). *)
Record MemStore := mk_store {
  ms_now : datetime;
  ms_fault : option string;
  ms_prices : gmap string (float * datetime);
  ms_candles : gmap (string * string * Z) OHLCV.t
}.

Definition ohlcv_of_point (pt : Point.t) : OHLCV.t :=
  {| OHLCV.open := Point.field_open pt;
     OHLCV.high := Point.field_high pt;
     OHLCV.low := Point.field_low pt;
     OHLCV.close := Point.field_close pt;
     OHLCV.volume := Point.field_volume pt |}.

Definition key_of_point (pt : Point.t) : string * string * Z :=
  (Point.tag_symbol pt, Point.tag_timeframe pt, Point.time pt).

(** Writing points one after the other, each replacing what its key held. *)
Definition upsert_points (pts : list Point.t)
    (m : gmap (string * string * Z) OHLCV.t) : gmap (string * string * Z) OHLCV.t :=
  foldl (fun acc pt => <[key_of_point pt := ohlcv_of_point pt]> acc) m pts.

(** The store's clock in whole seconds, the precision of candle points. *)
Definition ms_now_seconds (s : MemStore) : Z :=
  ms_now s / microseconds_per_second.

Definition opens_before (a b : Z * OHLCV.t) : Prop := a.1 <= b.1.

#[export] Instance opens_before_dec : RelDecision opens_before :=
  fun a b => Z_le_dec a.1 b.1.

(** The candles of a series whose open time lies in the last [seconds]
    seconds, by ascending open time. *)
Definition series_in_window (s : MemStore) (symbol interval : string)
    (seconds : Z) : list (Z * OHLCV.t) :=
  merge_sort opens_before
    (omap (fun kv : (string * string * Z) * OHLCV.t =>
             let '((sym, tfr, t), v) := kv in
             if String.eqb sym symbol && String.eqb tfr interval
                && (ms_now_seconds s - seconds <=? t) && (t <? ms_now_seconds s)
             then Some (t, v) else None)
          (map_to_list (ms_candles s))).

Definition row_of_entry (e : Z * OHLCV.t) : CandleRow.t :=
  {| CandleRow.time := e.1;
     CandleRow.open := Some (OHLCV.open e.2);
     CandleRow.high := Some (OHLCV.high e.2);
     CandleRow.low := Some (OHLCV.low e.2);
     CandleRow.close := Some (OHLCV.close e.2);
     CandleRow.volume := Some (OHLCV.volume e.2) |}.

(** Flux [tail(n: n)]: the last [n] rows. *)
Definition tail_rows {A} (n : Z) (l : list A) : list A :=
  drop (length l - Z.to_nat n)%nat l.

#[export] Instance MemStore_influx : InfluxDB MemStore := {
  query_last_price s symbol :=
    match ms_fault s with
    | Some e => Raises e
    | None =>
        match ms_prices s !! symbol with
        | Some (v, t) =>
            if (ms_now s - 3600 * microseconds_per_second <=? t) && (t <? ms_now s)
            then Returns [[ {| PriceRow.value := Returns v; PriceRow.time := t |} ]]
            else Returns []
        | None => Returns []
        end
    end;
  query_candle_count s symbol interval hours :=
    match ms_fault s with
    | Some e => Raises e
    | None =>
        match series_in_window s symbol interval (hours * 3600) with
        | [] => Returns []
        | rows => Returns [[ Returns (len rows) ]]
        end
    end;
  query_candles s symbol interval limit :=
    match ms_fault s with
    | Some e => Raises e
    | None =>
        match tail_rows limit (series_in_window s symbol interval (7 * 86400)) with
        | [] => Returns []
        | rows => Returns [ map row_of_entry rows ]
        end
    end;
  write_points s pts :=
    match ms_fault s with
    | Some e => (s, Some e)
    | None =>
        (mk_store (ms_now s) None (ms_prices s) (upsert_points pts (ms_candles s)),
         None)
    end
}.

(** Stores on which writing the same points a second time changes nothing. *)
Class IdempotentWrites (S : Type) `{InfluxDB S} : Prop :=
  write_twice : forall (s s' : S) (pts : list Point.t),
    write_points s pts = (s', None) -> fst (write_points s' pts) = s'.

(** ** Sample data *)

Definition adapter_up : DataAdapter.t :=
  {| DataAdapter.influx_client := true; DataAdapter.write_api := true |}.

(** 2023-11-14T22:13:20Z *)
Definition t0 : datetime := 1700000000 * microseconds_per_second.

Definition empty_store : MemStore :=
  {| ms_now := t0; ms_fault := None; ms_prices := ∅; ms_candles := ∅ |}.

Definition start_process {S} (s : S) : process S :=
  {| influx := s; calls := []; log := [] |}.

Definition sample_kline (open_time_ms : Z) : Kline.t :=
  {| Kline.open_time_ms := open_time_ms;
     Kline.open := 1%float; Kline.high := 2%float; Kline.low := 1%float;
     Kline.close := 2%float; Kline.volume := 10%float |}.

(** An exchange that knows one symbol and one closed one-minute candle. *)
Definition binance_up : Binance :=
  {| ticker_price symbol :=
       if String.eqb symbol "BTCUSDT"
       then Returns {| Ticker.symbol := "BTCUSDT"; Ticker.price := 35000%float |}
       else Raises "400 Client Error: Bad Request";
     klines symbol interval limit :=
       if String.eqb symbol "BTCUSDT"
       then Returns (take (Z.to_nat limit) [sample_kline (1699999920 * 1000)])
       else Raises "400 Client Error: Bad Request" |}.

(** An exchange that cannot be reached. *)
Definition binance_down : Binance :=
  {| ticker_price _ := Raises "Read timed out";
     klines _ _ _ := Raises "Read timed out" |}.

(** ** Runs of the bot supervisor *)

(** What reaches the supervisor: a heartbeat, a control request, or a status
    read, each with the clock reading at which it is served. *)
Inductive event : Type :=
| Heartbeat (now : datetime) (heartbeat : BotHeartbeat.t)
| Control (now : datetime) (request : BotControlRequest.t)
| StatusRead (now : datetime).

Definition serve (bot_manager : BotManager.t) (e : event) : BotManager.t :=
  match e with
  | Heartbeat now heartbeat => snd (bot_heartbeat now heartbeat bot_manager)
  | Control now request => snd (bot_control now request bot_manager)
  | StatusRead now => snd (bot_status now bot_manager)
  end.

Definition serve_all (events : list event) (bot_manager : BotManager.t)
    : BotManager.t :=
  foldl serve bot_manager events.

(** The heartbeat [heartbeat] carrying the signal [s]. *)
Definition carrying (s : BotSignal.t) (heartbeat : BotHeartbeat.t)
    : BotHeartbeat.t :=
  {| BotHeartbeat.timestamp := BotHeartbeat.timestamp heartbeat;
     BotHeartbeat.state := BotHeartbeat.state heartbeat;
     BotHeartbeat.symbol := BotHeartbeat.symbol heartbeat;
     BotHeartbeat.tf := BotHeartbeat.tf heartbeat;
     BotHeartbeat.lastSignal := Some s;
     BotHeartbeat.openPositions := BotHeartbeat.openPositions heartbeat;
     BotHeartbeat.pnl := BotHeartbeat.pnl heartbeat |}.

(** The heartbeat [heartbeat] with its payload timestamp replaced. *)
Definition stamped (timestamp : string) (heartbeat : BotHeartbeat.t)
    : BotHeartbeat.t :=
  {| BotHeartbeat.timestamp := timestamp;
     BotHeartbeat.state := BotHeartbeat.state heartbeat;
     BotHeartbeat.symbol := BotHeartbeat.symbol heartbeat;
     BotHeartbeat.tf := BotHeartbeat.tf heartbeat;
     BotHeartbeat.lastSignal := BotHeartbeat.lastSignal heartbeat;
     BotHeartbeat.openPositions := BotHeartbeat.openPositions heartbeat;
     BotHeartbeat.pnl := BotHeartbeat.pnl heartbeat |}.

Definition running_heartbeat : BotHeartbeat.t :=
  {| BotHeartbeat.timestamp := "2023-11-14T22:13:20+00:00";
     BotHeartbeat.state := "running";
     BotHeartbeat.symbol := "ETHUSDT";
     BotHeartbeat.tf := "1h";
     BotHeartbeat.lastSignal := None;
     BotHeartbeat.openPositions := [];
     BotHeartbeat.pnl := 0%float |}.

(** A supervisor whose worker reported [running] on ETHUSDT/1h at [t0]. *)
Definition running_manager : BotManager.t :=
  BotManager.update_heartbeat t0 running_heartbeat (BotManager.init t0).

Definition seconds (n : Z) : Z := n * microseconds_per_second.

(** ** Sample requests and a covered store *)

Definition one_candle_request : BackfillRequest.t :=
  {| BackfillRequest.symbol := "BTCUSDT";
     BackfillRequest.interval := "1m";
     BackfillRequest.limit := 1 |}.

Definition default_request : BackfillRequest.t :=
  {| BackfillRequest.symbol := "BTCUSDT";
     BackfillRequest.interval := "1m";
     BackfillRequest.limit := 500 |}.

Definition sample_ohlcv : OHLCV.t :=
  {| OHLCV.open := 1%float; OHLCV.high := 2%float; OHLCV.low := 1%float;
     OHLCV.close := 2%float; OHLCV.volume := 10%float |}.

(** A store holding the 100 one-minute candles of BTCUSDT that open from
    10000 seconds before [t0] on. *)
Definition covered_store : MemStore :=
  {| ms_now := t0;
     ms_fault := None;
     ms_prices := ∅;
     ms_candles :=
       list_to_map
         (map (fun i : nat =>
                 (("BTCUSDT", "1m", 1699990000 + 60 * Z.of_nat i), sample_ohlcv))
              (seq 0 100)) |}.

(** ** Notions the data properties are stated with *)

(** The candles [get_candles_from_binance] makes of the exchange's answer. *)
Definition exchange_candles (binance : Binance) (symbol interval : string)
    (limit : Z) : list Candle.t :=
  match klines binance symbol interval limit with
  | Returns ks => map (candle_of_kline symbol interval) ks
  | Raises _ => []
  end.


(** Whether every candle's time is one [fromtimestamp] takes. *)
Definition times_in_range (candles : list Candle.t) : bool :=
  forallb (fun candle =>
             (datetime_min_seconds <=? Candle.timestamp candle)
             && (Candle.timestamp candle <=? datetime_max_seconds))
    candles.

(** [needle in haystack], decided. *)
Fixpoint contains (needle haystack : string) : bool :=
  String.prefix needle haystack
  || match haystack with
     | EmptyString => false
     | String _ rest => contains needle rest
     end.

(** ** The markets endpoint *)

(** One ticker of Binance's [/ticker/24hr] answer: its symbol, and what
    [float(ticker[...])] gives for each of the four numbers read from it. *)
Module Ticker24hr.
Record t := mk {
  symbol : string;
  lastPrice : outcome float;
  priceChange : outcome float;
  priceChangePercent : outcome float;
  volume : outcome float
}.
End Ticker24hr.

Module MarketData.
Record t := mk {
  symbol : string;
  lastPrice : float;
  priceChange : float;
  priceChangePercent : float;
  volume : float;
  timestamp : datetime
}.
End MarketData.

Module MarketsResponse.
Record t := mk {
  markets : list MarketData.t;
  timestamp : datetime;
  count : Z
}.
End MarketsResponse.

(** [self.default_symbols] *)
Definition default_symbols : list string :=
  ["BTCUSDT"; "ETHUSDT"; "BNBUSDT"; "XRPUSDT"; "SOLUSDT";
   "ADAUSDT"; "DOGEUSDT"; "AVAXUSDT"; "DOTUSDT"; "MATICUSDT";
   "LINKUSDT"; "ATOMUSDT"; "LTCUSDT"; "UNIUSDT"; "ETCUSDT";
   "FILUSDT"; "TRXUSDT"; "ALGOUSDT"; "XLMUSDT"; "VETUSDT"].

(** [ticker["symbol"] in symbols] *)
Definition symbol_in (symbols : list string) (ticker : Ticker24hr.t) : bool :=
  existsb (String.eqb (Ticker24hr.symbol ticker)) symbols.

(** The dictionary appended for a ticker: the four conversions in the order
    of the source, the first that raises ending it, then the clock reading
    [now]. *)
Definition market_of_ticker (now : datetime) (ticker : Ticker24hr.t)
    : outcome MarketData.t :=
  match Ticker24hr.lastPrice ticker with
  | Raises e => Raises e
  | Returns last =>
      match Ticker24hr.priceChange ticker with
      | Raises e => Raises e
      | Returns change =>
          match Ticker24hr.priceChangePercent ticker with
          | Raises e => Raises e
          | Returns percent =>
              match Ticker24hr.volume ticker with
              | Raises e => Raises e
              | Returns vol =>
                  Returns {| MarketData.symbol := Ticker24hr.symbol ticker;
                             MarketData.lastPrice := last;
                             MarketData.priceChange := change;
                             MarketData.priceChangePercent := percent;
                             MarketData.volume := vol;
                             MarketData.timestamp := now |}
              end
          end
      end
  end.

(** The loop over [all_tickers], with [markets] the list built so far;
    [stamp k] is the clock reading taken for the [k]-th market appended. *)
Fixpoint collect_markets (stamp : nat -> datetime) (symbols : list string)
    (all_tickers : list Ticker24hr.t) (markets : list MarketData.t)
    : outcome (list MarketData.t) :=
  match all_tickers with
  | [] => Returns markets
  | ticker :: rest =>
      if symbol_in symbols ticker then
        match market_of_ticker (stamp (length markets)) ticker with
        | Returns market => collect_markets stamp symbols rest (markets ++ [market])
        | Raises e => Raises e
        end
      else collect_markets stamp symbols rest markets
  end.

(** The stable sort by volume, highest first, markets of equal volume in the
    order they had, written as an insertion from the right.  On volumes
    without NaN, where [<] orders the keys, this is the one list a stable
    sort can give. *)
Fixpoint insert_by_volume (market : MarketData.t) (sorted : list MarketData.t)
    : list MarketData.t :=
  match sorted with
  | [] => [market]
  | next :: rest =>
      if PrimFloat.ltb (MarketData.volume market) (MarketData.volume next)
      then next :: insert_by_volume market rest
      else market :: sorted
  end.

Definition sort_by_volume (markets : list MarketData.t) : list MarketData.t :=
  foldr insert_by_volume [] markets.

(** Whether no market has NaN for its volume. *)
Definition no_nan_volume (markets : list MarketData.t) : bool :=
  forallb (fun market => negb (PrimFloat.is_nan (MarketData.volume market)))
    markets.

(** [markets.sort(key=lambda x: x["volume"], reverse=True)], Python's
    [list.sort], taken with what the language promises of it: the list
    afterwards is a permutation of the list before; and the sort is stable,
    so that when no key is NaN it leaves the markets highest volume first,
    equal volumes in the order they had.  With a NaN among the keys [<] no
    longer orders them, and the order left is that of the steps of the
    interpreter's algorithm; it is not fixed here. *)
Class ListSort := {
  sort_markets : list MarketData.t -> list MarketData.t;
  sort_markets_permutes : forall markets, sort_markets markets ≡ₚ markets;
  sort_markets_stable : forall markets,
    no_nan_volume markets = true -> sort_markets markets = sort_by_volume markets
}.

(** [get_markets_from_binance]; [all_tickers] is what the [/ticker/24hr]
    request gives after [raise_for_status()] and [json()].  The request comes
    in as its answer and is not entered in [calls], the trace of the price
    and candle resolution. *)
Definition get_markets_from_binance {S} `{ListSort}
    (all_tickers : outcome (list Ticker24hr.t)) (stamp : nat -> datetime)
    (symbols : list string) : M S (list MarketData.t) :=
  match all_tickers with
  | Raises e =>
      logger ERROR ("Error fetching markets from Binance: " +:+ e) ;;
      ret []
  | Returns tickers =>
      match collect_markets stamp symbols tickers [] with
      | Raises e =>
          logger ERROR ("Error fetching markets from Binance: " +:+ e) ;;
          ret []
      | Returns markets => ret (take 20 (sort_markets markets))
      end
  end.

(** [GET /data/markets]; [now] stamps the response. *)
Definition get_markets {S} `{ListSort}
    (all_tickers : outcome (list Ticker24hr.t))
    (stamp : nat -> datetime) (now : datetime) : M S (http MarketsResponse.t) :=
  let* markets := get_markets_from_binance all_tickers stamp default_symbols in
  if negb (truthy_list markets) then
    ret (HTTPException 503 "Unable to fetch market data")
  else
    ret (Response {| MarketsResponse.markets := markets;
                     MarketsResponse.timestamp := now;
                     MarketsResponse.count := len markets |}).

(** The volume of [a] is at least that of [b]. *)
Definition at_least (a b : MarketData.t) : Prop :=
  PrimFloat.leb (MarketData.volume b) (MarketData.volume a) = true.

(** The place of a float in the order of [<]: none for NaN, else a triple
    compared from the left (sign and class, then exponent, then mantissa,
    the last two negated for a negative number). *)
Definition sf_key (x : SpecFloat.spec_float) : option (Z * Z * Z) :=
  match x with
  | SpecFloat.S754_nan => None
  | SpecFloat.S754_infinity s => Some (if s then -2 else 2, 0, 0)
  | SpecFloat.S754_zero _ => Some (0, 0, 0)
  | SpecFloat.S754_finite s m e =>
      Some (if s then (-1, - e, - Zpos m) else (1, e, Zpos m))
  end.

Definition lex_compare (k k' : Z * Z * Z) : comparison :=
  let '(a, b, c) := k in
  let '(a', b', c') := k' in
  match a ?= a' with
  | Eq => match b ?= b' with Eq => c ?= c' | r => r end
  | r => r
  end.

(** The tickers every one of whose four numbers converts. *)
Definition converts (ticker : Ticker24hr.t) : bool :=
  match Ticker24hr.lastPrice ticker, Ticker24hr.priceChange ticker,
        Ticker24hr.priceChangePercent ticker, Ticker24hr.volume ticker with
  | Returns _, Returns _, Returns _, Returns _ => true
  | _, _, _, _ => false
  end.

Definition sample_ticker (symbol : string) (volume : float) : Ticker24hr.t :=
  {| Ticker24hr.symbol := symbol;
     Ticker24hr.lastPrice := Returns 100%float;
     Ticker24hr.priceChange := Returns 1%float;
     Ticker24hr.priceChangePercent := Returns 1%float;
     Ticker24hr.volume := Returns volume |}.

(** A 24-hour answer with two tracked symbols around one that is not. *)
Definition sample_tickers : list Ticker24hr.t :=
  [sample_ticker "ETHUSDT" 500%float;
   sample_ticker "PEPEUSDT" 900%float;
   sample_ticker "BTCUSDT" 700%float].

(** The tickers of the answer whose symbol is asked for, in their order. *)
Definition asked_for (symbols : list string) (tickers : list Ticker24hr.t)
    : list Ticker24hr.t :=
  List.filter (symbol_in symbols) tickers.

(** An adapter whose [write_api] could not be created. *)
Definition adapter_without_write_api : DataAdapter.t :=
  {| DataAdapter.influx_client := true; DataAdapter.write_api := false |}.

(** A store that cannot be reached. *)
Definition unreachable_store : MemStore :=
  {| ms_now := t0; ms_fault := Some "Connection refused";
     ms_prices := ∅; ms_candles := ∅ |}.

(** ** Further notions for runs of the supervisor *)

Definition is_heartbeat (e : event) : bool :=
  match e with
  | Heartbeat _ _ => true
  | _ => false
  end.

Definition is_status_read (e : event) : bool :=
  match e with
  | StatusRead _ => true
  | _ => false
  end.

(** The states an administrative command can leave behind. *)
Definition commanded_state (action : string) : string :=
  if String.eqb action "start" then "running"
  else if String.eqb action "pause" then "paused"
  else "stopped".

(** * Properties of the bot supervisor *)

Lemma is_heartbeat_stale_age (now : datetime) (m : BotManager.t) :
  BotManager.is_heartbeat_stale now 60 m = true <->
  seconds 60 < now - BotManager.last_heartbeat m.
Proof.
  unfold BotManager.is_heartbeat_stale, total_seconds_gt, seconds.
  apply Z.ltb_lt.
Qed.

Lemma serve_keeps_capacity (m : BotManager.t) (e : event) :
  (length (BotManager.last_signals m) <= 3)%nat ->
  (length (BotManager.last_signals (serve m e)) <= 3)%nat.
Proof.
  intros Hm. destruct e as [now hb | now req | now]; simpl.
  - destruct (BotHeartbeat.lastSignal hb) as [s|]; [|exact Hm].
    destruct (BotManager.last_signals m) as [|a [|b l]]; simpl; lia.
  - unfold bot_control.
    destruct (negb (valid_action (BotControlRequest.action req))); exact Hm.
  - unfold bot_status.
    destruct (BotManager.is_heartbeat_stale now 60 m
              && String.eqb (BotManager.state m) "running"); exact Hm.
Qed.

Lemma serve_all_keeps_capacity (events : list event) (m : BotManager.t) :
  (length (BotManager.last_signals m) <= 3)%nat ->
  (length (BotManager.last_signals (serve_all events m)) <= 3)%nat.
Proof.
  revert m. induction events as [|e events IH]; intros m Hm; simpl.
  - exact Hm.
  - apply IH. apply serve_keeps_capacity. exact Hm.
Qed.

(** C8. From the initial supervisor, whatever heartbeats, control requests
    and status reads are served, [last_signals] holds at most 3 signals; a
    heartbeat carrying a signal puts it at the front and keeps the first
    three; and after five heartbeats carrying the signals [s1] to [s5] the
    list is exactly [s5; s4; s3], newest first, whatever it held before. *)
Theorem recent_signals_capacity_newest_first :
  (forall (now0 : datetime) (events : list event),
      (length (BotManager.last_signals
                 (serve_all events (BotManager.init now0))) <= 3)%nat)
  /\ (forall (now : datetime) (hb : BotHeartbeat.t) (s : BotSignal.t)
             (m : BotManager.t),
         BotManager.last_signals
           (BotManager.update_heartbeat now (carrying s hb) m)
         = take 3 (s :: BotManager.last_signals m))
  /\ (forall (m : BotManager.t) (n1 n2 n3 n4 n5 : datetime)
             (h1 h2 h3 h4 h5 : BotHeartbeat.t) (s1 s2 s3 s4 s5 : BotSignal.t),
         BotManager.last_signals
           (serve_all [Heartbeat n1 (carrying s1 h1); Heartbeat n2 (carrying s2 h2);
                       Heartbeat n3 (carrying s3 h3); Heartbeat n4 (carrying s4 h4);
                       Heartbeat n5 (carrying s5 h5)] m)
         = [s5; s4; s3]).
Proof.
  split; [|split].
  - intros now0 events. apply serve_all_keeps_capacity. simpl. lia.
  - reflexivity.
  - reflexivity.
Qed.

(** C9. A heartbeat served at clock reading [now] sets [last_heartbeat] to
    [now]; the supervisor after it is the same whatever timestamp the payload
    carries; and staleness afterwards is decided by the time elapsed since
    [now] alone, so a backdated heartbeat is fresh on arrival. *)
Theorem heartbeat_stamped_at_arrival :
  forall (now : datetime) (hb : BotHeartbeat.t) (m : BotManager.t),
    BotManager.last_heartbeat (snd (bot_heartbeat now hb m)) = now
    /\ (forall payload_timestamp : string,
           snd (bot_heartbeat now (stamped payload_timestamp hb) m)
           = snd (bot_heartbeat now hb m))
    /\ (forall later : datetime,
           BotManager.is_heartbeat_stale later 60 (snd (bot_heartbeat now hb m)) = true
           <-> seconds 60 < later - now)
    /\ BotManager.is_heartbeat_stale now 60 (snd (bot_heartbeat now hb m)) = false.
Proof.
  intros now hb m. split; [reflexivity|]. split; [reflexivity|]. split.
  - intros later. apply is_heartbeat_stale_age.
  - simpl. unfold BotManager.is_heartbeat_stale, total_seconds_gt. simpl.
    apply Z.ltb_ge. unfold microseconds_per_second. lia.
Qed.

(** C3, as the claim states it, fails: a status read 61 seconds after the
    last heartbeat of a running worker reports [disconnected] and also stores
    it, so the supervisor after the read differs from the one before. *)
Lemma bot_status_read_stores_disconnected :
  BotManager.state running_manager = "running"
  /\ fst (bot_status (t0 + seconds 61) running_manager)
     = Response (BotStatus.set_state "disconnected"
                   (BotManager.get_status running_manager))
  /\ BotManager.state (snd (bot_status (t0 + seconds 61) running_manager))
     = "disconnected"
  /\ snd (bot_status (t0 + seconds 61) running_manager) <> running_manager.
Proof.
  split; [reflexivity|]. split; [reflexivity|]. split; [reflexivity|].
  intros Heq. apply (f_equal BotManager.state) in Heq. discriminate Heq.
Qed.

(** C3, amended. When the stored state is [running] and the last heartbeat
    is more than 60 seconds old, a status read reports [disconnected] and
    stores [disconnected] as the state, leaving every other field as it was;
    in every other case the read reports the stored state and leaves the
    supervisor unchanged.  A heartbeat served afterwards sets the state to
    the one the worker reports. *)
Theorem bot_status_disconnected_is_stored :
  forall (now : datetime) (m : BotManager.t),
    (BotManager.state m = "running"
     /\ seconds 60 < now - BotManager.last_heartbeat m ->
     fst (bot_status now m)
     = Response (BotStatus.set_state "disconnected" (BotManager.get_status m))
     /\ snd (bot_status now m) = BotManager.assign_state "disconnected" m)
    /\ (~ (BotManager.state m = "running"
           /\ seconds 60 < now - BotManager.last_heartbeat m) ->
        bot_status now m = (Response (BotManager.get_status m), m))
    /\ (forall (later : datetime) (hb : BotHeartbeat.t),
           BotManager.state (snd (bot_heartbeat later hb (snd (bot_status now m))))
           = BotHeartbeat.state hb).
Proof.
  intros now m. split; [|split].
  - intros [Hrun Hold]. apply is_heartbeat_stale_age in Hold.
    unfold bot_status. rewrite Hold, Hrun. simpl. split; reflexivity.
  - intros Hnot. unfold bot_status.
    destruct (BotManager.is_heartbeat_stale now 60 m) eqn:Hstale; [|reflexivity].
    destruct (String.eqb_spec (BotManager.state m) "running") as [Hrun|Hrun];
      [|reflexivity].
    exfalso. apply Hnot. split; [exact Hrun|].
    apply is_heartbeat_stale_age. exact Hstale.
  - reflexivity.
Qed.

(** The scenario of the specification: a [running] heartbeat at [t0], a
    status read 61 seconds later reports [disconnected], and a heartbeat half
    a second after that brings back the state the worker reports. *)
Example stale_then_heartbeat_restores :
  BotStatus.state
    (BotManager.get_status
       (serve_all [StatusRead (t0 + seconds 61)] running_manager))
  = "disconnected"
  /\ BotManager.state
       (serve_all [StatusRead (t0 + seconds 61);
                   Heartbeat (t0 + seconds 61 + 500000) running_heartbeat]
          running_manager)
     = "running".
Proof. split; reflexivity. Qed.

(** C10, as the claim states it, fails: a valid [pause] request whose symbol
    and timeframe are empty strings, or are JSON [null], leaves the tracked
    symbol and timeframe as they were instead of overwriting them. *)
Lemma bot_control_keeps_symbol_on_empty :
  let empty := BotControlRequest.mk "pause" (Some "") (Some "") in
  let null :=
    BotControlRequest.of_body
      (BotControlRequest.mk_body "pause" (Some None) (Some None)) in
  valid_action "pause" = true
  /\ BotManager.current_symbol (snd (bot_control t0 empty running_manager))
     = "ETHUSDT"
  /\ BotManager.current_tf (snd (bot_control t0 empty running_manager)) = "1h"
  /\ Some (BotManager.current_symbol (snd (bot_control t0 empty running_manager)))
     <> BotControlRequest.symbol empty
  /\ BotControlRequest.symbol null = None
  /\ BotManager.current_symbol (snd (bot_control t0 null running_manager))
     = "ETHUSDT"
  /\ BotManager.current_tf (snd (bot_control t0 null running_manager)) = "1h".
Proof.
  cbv zeta. repeat split; try reflexivity.
  simpl. discriminate.
Qed.

(** C10, amended. A control request with a valid action, [pause] and [stop]
    included, overwrites the tracked symbol (timeframe) with the request's
    value when that value is a non-empty string, and leaves it unchanged when
    the value is [null] or empty.  A request that omits both keys carries the
    defaults [BTCUSDT] and [15m], so it resets the tracked symbol and
    timeframe to them. *)
Theorem bot_control_overwrites_nonempty :
  forall (now : datetime) (request : BotControlRequest.t) (m : BotManager.t),
    valid_action (BotControlRequest.action request) = true ->
    (forall s : string,
        BotControlRequest.symbol request = Some s -> s <> "" ->
        BotManager.current_symbol (snd (bot_control now request m)) = s)
    /\ (BotControlRequest.symbol request = None
        \/ BotControlRequest.symbol request = Some "" ->
        BotManager.current_symbol (snd (bot_control now request m))
        = BotManager.current_symbol m)
    /\ (forall s : string,
           BotControlRequest.tf request = Some s -> s <> "" ->
           BotManager.current_tf (snd (bot_control now request m)) = s)
    /\ (BotControlRequest.tf request = None
        \/ BotControlRequest.tf request = Some "" ->
        BotManager.current_tf (snd (bot_control now request m))
        = BotManager.current_tf m)
    /\ (let bare :=
          BotControlRequest.of_body
            (BotControlRequest.mk_body (BotControlRequest.action request)
               None None) in
        BotManager.current_symbol (snd (bot_control now bare m)) = "BTCUSDT"
        /\ BotManager.current_tf (snd (bot_control now bare m)) = "15m").
Proof.
  intros now request m Hvalid.
  assert (Hne : forall s : string, s <> "" -> String.eqb s "" = false)
    by (intros s Hs; apply String.eqb_neq; exact Hs).
  unfold bot_control. rewrite Hvalid. simpl.
  split; [|split; [|split; [|split]]].
  - intros s Hs Hnonempty. rewrite Hs. simpl. rewrite (Hne s Hnonempty). reflexivity.
  - intros [Hs|Hs]; rewrite Hs; reflexivity.
  - intros s Hs Hnonempty. rewrite Hs. simpl. rewrite (Hne s Hnonempty). reflexivity.
  - intros [Hs|Hs]; rewrite Hs; reflexivity.
  - unfold BotControlRequest.of_body. simpl. rewrite Hvalid. simpl.
    split; reflexivity.
Qed.

(** On the sample supervisor a [stop] for SOLUSDT with a [null] timeframe
    overwrites the symbol and keeps the timeframe. *)
Lemma bot_control_overwrites_nonempty_witness :
  BotManager.current_symbol
    (snd (bot_control t0 (BotControlRequest.mk "stop" (Some "SOLUSDT") None)
            running_manager)) = "SOLUSDT"
  /\ BotManager.current_tf
       (snd (bot_control t0 (BotControlRequest.mk "stop" (Some "SOLUSDT") None)
               running_manager)) = "1h".
Proof.
  destruct (bot_control_overwrites_nonempty t0
              (BotControlRequest.mk "stop" (Some "SOLUSDT") None)
              running_manager eq_refl) as (Hsym & _ & _ & Htf & _).
  split.
  - apply (Hsym "SOLUSDT"); [reflexivity | discriminate].
  - apply Htf. left. reflexivity.
Defined.

(** * Properties of the data endpoints *)

Ltac run :=
  unfold bind, ret, record_call, logger, read_store, update_store; simpl.

Lemma exchange_calls_app (l l' : list call) :
  exchange_calls (l ++ l') = (exchange_calls l + exchange_calls l')%nat.
Proof. unfold exchange_calls. rewrite filter_app, length_app. reflexivity. Qed.

Lemma exchange_calls_store (l : list call) (c : call) :
  is_exchange_call c = false -> exchange_calls (l ++ [c]) = exchange_calls l.
Proof.
  intros Hc. rewrite exchange_calls_app. unfold exchange_calls at 2.
  rewrite filter_cons, filter_nil. rewrite decide_False by congruence.
  simpl. lia.
Qed.

Lemma exchange_calls_exchange (l : list call) (c : call) :
  is_exchange_call c = true -> exchange_calls (l ++ [c]) = Datatypes.S (exchange_calls l).
Proof.
  intros Hc. rewrite exchange_calls_app. unfold exchange_calls at 2.
  rewrite filter_cons, filter_nil. rewrite decide_True by exact Hc.
  simpl. lia.
Qed.

Section DataProperties.
Context {S : Type} `{InfluxDB S}.
Variable self : DataAdapter.t.
Variable binance : Binance.







Lemma check_influx_candle_count_frame (symbol interval : string) (hours : Z)
    (p : process S) :
  influx (snd (check_influx_candle_count self symbol interval hours p)) = influx p
  /\ exchange_calls (calls (snd (check_influx_candle_count self symbol interval hours p)))
     = exchange_calls (calls p).
Proof.
  unfold check_influx_candle_count.
  destruct (DataAdapter.influx_client self); simpl; [|split; reflexivity].
  run. destruct (query_candle_count (influx p) symbol interval hours)
    as [tables|e]; simpl.
  - destruct (first_record tables) as [[n|e]|]; simpl;
      rewrite exchange_calls_store by reflexivity; split; reflexivity.
  - rewrite exchange_calls_store by reflexivity. split; reflexivity.
Qed.

(** The count read depends on the store alone, not on the trace or the log. *)
Lemma check_influx_candle_count_store (symbol interval : string) (hours : Z)
    (p q : process S) :
  influx p = influx q ->
  fst (check_influx_candle_count self symbol interval hours p)
  = fst (check_influx_candle_count self symbol interval hours q).
Proof.
  intros Hpq. unfold check_influx_candle_count.
  destruct (DataAdapter.influx_client self); simpl; [|reflexivity].
  run. rewrite Hpq.
  destruct (query_candle_count (influx q) symbol interval hours) as [tables|e];
    simpl; [|reflexivity].
  destruct (first_record tables) as [[n|e]|]; reflexivity.
Qed.

Lemma get_candles_from_binance_run (symbol interval : string) (limit : Z)
    (p : process S) :
  fst (get_candles_from_binance binance symbol interval limit p)
  = exchange_candles binance symbol interval limit
  /\ influx (snd (get_candles_from_binance binance symbol interval limit p))
     = influx p
  /\ calls (snd (get_candles_from_binance binance symbol interval limit p))
     = (calls p ++ [GetKlines symbol interval limit])%list
  /\ log (snd (get_candles_from_binance binance symbol interval limit p))
     = (log p ++ match klines binance symbol interval limit with
                 | Returns _ => []
                 | Raises e =>
                     [(ERROR, "Error fetching candles from Binance for "
                              +:+ symbol +:+ ": " +:+ e)]
                 end)%list.
Proof.
  unfold get_candles_from_binance, exchange_candles. run.
  destruct (klines binance symbol interval limit) as [ks|e]; simpl.
  - rewrite app_nil_r. repeat split; reflexivity.
  - repeat split; reflexivity.
Qed.

Lemma points_of_candles_eq (candles : list Candle.t) :
  points_of_candles candles
  = if times_in_range candles
    then Returns (map point_of_candle candles)
    else Raises "timestamp out of range".
Proof.
  induction candles as [|c candles IH]; simpl; [reflexivity|].
  unfold fromtimestamp.
  destruct ((datetime_min_seconds <=? Candle.timestamp c)
            && (Candle.timestamp c <=? datetime_max_seconds)); simpl;
    [|reflexivity].
  rewrite IH. destruct (times_in_range candles); reflexivity.
Qed.

Lemma write_candles_to_influx_run (candles : list Candle.t) (p : process S) :
  exchange_calls (calls (snd (write_candles_to_influx self candles p)))
  = exchange_calls (calls p)
  /\ (fst (write_candles_to_influx self candles p) = 0
      \/ fst (write_candles_to_influx self candles p) = len candles)
  /\ influx (snd (write_candles_to_influx self candles p))
     = (if DataAdapter.write_api self && truthy_list candles
           && times_in_range candles
        then fst (write_points (influx p) (map point_of_candle candles))
        else influx p)
  /\ (DataAdapter.write_api self = true -> candles <> [] ->
      times_in_range candles = true ->
      snd (write_points (influx p) (map point_of_candle candles)) = None ->
      fst (write_candles_to_influx self candles p) = len candles).
Proof.
  unfold write_candles_to_influx.
  destruct (DataAdapter.write_api self); simpl.
  2:{ split; [reflexivity|]. split; [left; reflexivity|].
      split; [reflexivity|]. discriminate. }
  destruct candles as [|c candles]; cbn [truthy_list negb].
  { split; [reflexivity|]. split; [left; reflexivity|].
    split; [reflexivity|]. intros _ Hne. congruence. }
  rewrite points_of_candles_eq.
  destruct (times_in_range (c :: candles)).
  2:{ run. split; [reflexivity|]. split; [left; reflexivity|].
      split; [reflexivity|]. intros _ _ Hrange. discriminate Hrange. }
  run.
  destruct (write_points (influx p)
              (point_of_candle c :: map point_of_candle candles))
    as [s' [e|]]; simpl;
    rewrite exchange_calls_store by reflexivity.
  - split; [reflexivity|]. split; [left; reflexivity|].
    split; [reflexivity|]. discriminate.
  - assert (Hlen : len (point_of_candle c :: map point_of_candle candles)
                   = len (c :: candles)).
    { unfold len. simpl. rewrite length_map. reflexivity. }
    split; [reflexivity|]. split; [right; exact Hlen|].
    split; [reflexivity|]. intros _ _ _ _. exact Hlen.
Qed.

(** C6. When the count [check_influx_candle_count] reads for the series over
    24 hours is at least 100, [backfill_candles] answers [skipped] with no
    candles written and the count spelled out in its message, and the trace
    gains no exchange call. *)
Theorem backfill_skips_when_covered :
  forall (request : BackfillRequest.t) (p : process S),
    let counted :=
      check_influx_candle_count self (BackfillRequest.symbol request)
        (BackfillRequest.interval request) 24 p in
    let skipped :=
      {| BackfillResponse.symbol := BackfillRequest.symbol request;
         BackfillResponse.interval := BackfillRequest.interval request;
         BackfillResponse.candlesWritten := 0;
         BackfillResponse.status := "skipped";
         BackfillResponse.message :=
           "Sufficient data exists (" +:+ str_of_Z (fst counted)
           +:+ " candles >= 100)" |} in
    100 <= fst counted ->
    backfill_candles self binance request p = (Response skipped, snd counted)
    /\ substring_of (str_of_Z (fst counted)) (BackfillResponse.message skipped)
    /\ exchange_calls (calls (snd (backfill_candles self binance request p)))
       = exchange_calls (calls p).
Proof.
  intros request p counted skipped Hcovered.
  assert (Hrun : backfill_candles self binance request p
                 = (Response skipped, snd counted)).
  { unfold backfill_candles, bind. fold counted.
    destruct counted as [n p'] eqn:Hcounted. simpl in Hcovered. simpl.
    apply Z.leb_le in Hcovered. rewrite Hcovered. reflexivity. }
  split; [exact Hrun|]. split.
  - exists "Sufficient data exists (", " candles >= 100)". reflexivity.
  - rewrite Hrun. simpl.
    apply (check_influx_candle_count_frame (BackfillRequest.symbol request)
             (BackfillRequest.interval request) 24 p).
Qed.

(** C7, amended.  When the count read is below 100 and the exchange's klines
    call raises, [backfill_candles] makes that one exchange call and no
    other, leaves the store as it was, and answers [failed] with no candles
    written and the fixed message "No candle data available from Binance";
    the text of the error goes to the log, at level ERROR. *)
Theorem backfill_failed_reason_is_fixed :
  forall (request : BackfillRequest.t) (p : process S) (e : string),
    let counted :=
      check_influx_candle_count self (BackfillRequest.symbol request)
        (BackfillRequest.interval request) 24 p in
    let answer := backfill_candles self binance request p in
    klines binance (BackfillRequest.symbol request)
      (BackfillRequest.interval request) (BackfillRequest.limit request)
    = Raises e ->
    fst counted < 100 ->
    fst answer
    = Response
        {| BackfillResponse.symbol := BackfillRequest.symbol request;
           BackfillResponse.interval := BackfillRequest.interval request;
           BackfillResponse.candlesWritten := 0;
           BackfillResponse.status := "failed";
           BackfillResponse.message := "No candle data available from Binance" |}
    /\ calls (snd answer)
       = (calls (snd counted)
          ++ [GetKlines (BackfillRequest.symbol request)
                (BackfillRequest.interval request) (BackfillRequest.limit request)])%list
    /\ exchange_calls (calls (snd answer)) = Datatypes.S (exchange_calls (calls p))
    /\ influx (snd answer) = influx p
    /\ log (snd answer)
       = (log (snd counted)
          ++ [(ERROR, "Error fetching candles from Binance for "
                      +:+ BackfillRequest.symbol request +:+ ": " +:+ e)])%list.
Proof.
  intros request p e counted answer Hraises Hbelow.
  destruct (check_influx_candle_count_frame (BackfillRequest.symbol request)
              (BackfillRequest.interval request) 24 p) as [Hstore Hcalls].
  fold counted in Hstore, Hcalls.
  unfold answer, backfill_candles, bind. fold counted.
  destruct counted as [n p'] eqn:Hcounted. simpl in *.
  apply Z.leb_gt in Hbelow. rewrite Hbelow.
  unfold get_candles_from_binance. run. rewrite Hraises. simpl.
  rewrite exchange_calls_exchange by reflexivity.
  repeat split; congruence.
Qed.

Lemma write_candles_to_influx_calls (candles : list Candle.t) (p : process S)
    (c : call) :
  In c (calls p) -> In c (calls (snd (write_candles_to_influx self candles p))).
Proof.
  intros Hc. unfold write_candles_to_influx.
  destruct (negb (DataAdapter.write_api self) || negb (truthy_list candles));
    [exact Hc|].
  destruct (points_of_candles candles) as [points|e]; [|exact Hc].
  run. destruct (write_points (influx p) points)
    as [s' [e|]]; simpl; apply in_or_app; left; exact Hc.
Qed.

Lemma candles_of_rows_raises (symbol interval : string) (rows : list CandleRow.t) :
  rows <> [] ->
  candles_of_rows symbol interval rows
  = Raises "'FluxRecord' object has no attribute 'get'".
Proof.
  destruct rows as [|row rows]; [congruence|]. intros _. reflexivity.
Qed.

Lemma get_candles_from_influx_empty (symbol interval : string) (limit : Z)
    (p : process S) :
  fst (get_candles_from_influx self symbol interval limit p) = [].
Proof.
  unfold get_candles_from_influx.
  destruct (DataAdapter.influx_client self); simpl; [|reflexivity].
  run. destruct (query_candles (influx p) symbol interval limit) as [tables|e];
    simpl; [|reflexivity].
  destruct (concat tables) as [|row rows]; reflexivity.
Qed.

Lemma get_candles_from_influx_frame (symbol interval : string) (limit : Z)
    (p : process S) :
  influx (snd (get_candles_from_influx self symbol interval limit p)) = influx p
  /\ exchange_calls (calls (snd (get_candles_from_influx self symbol interval limit p)))
     = exchange_calls (calls p).
Proof.
  unfold get_candles_from_influx.
  destruct (DataAdapter.influx_client self); simpl; [|split; reflexivity].
  run. destruct (query_candles (influx p) symbol interval limit) as [tables|e];
    simpl; [destruct (concat tables) as [|row rows]; simpl|];
    rewrite exchange_calls_store by reflexivity; split; reflexivity.
Qed.

Lemma write_candles_to_influx_nothing (candles : list Candle.t) (p : process S) :
  DataAdapter.write_api self = false
  \/ candles = []
  \/ times_in_range candles = false
  \/ (exists e, snd (write_points (influx p) (map point_of_candle candles)) = Some e) ->
  fst (write_candles_to_influx self candles p) = 0.
Proof.
  intros Hnothing. unfold write_candles_to_influx.
  destruct (DataAdapter.write_api self) eqn:Hapi; simpl; [|reflexivity].
  destruct candles as [|c candles]; cbn [truthy_list negb]; [reflexivity|].
  rewrite points_of_candles_eq.
  destruct (times_in_range (c :: candles)) eqn:Hrange; [|reflexivity].
  destruct Hnothing as [Hoff|[Hnil|[Hout|(e & He)]]];
    [discriminate Hoff|discriminate Hnil|discriminate Hout|].
  run. simpl in He.
  destruct (write_points (influx p)
              (point_of_candle c :: map point_of_candle candles))
    as [s' raised].
  simpl in He. subst raised. reflexivity.
Qed.

Lemma backfill_candles_run (request : BackfillRequest.t) (q : process S) :
  let n :=
    fst (check_influx_candle_count self (BackfillRequest.symbol request)
           (BackfillRequest.interval request) 24 q) in
  let fetched :=
    exchange_candles binance (BackfillRequest.symbol request)
      (BackfillRequest.interval request) (BackfillRequest.limit request) in
  let answer := backfill_candles self binance request q in
  (100 <= n ->
   (exists b, fst answer = Response b
      /\ BackfillResponse.status b = "skipped"
      /\ BackfillResponse.candlesWritten b = 0)
   /\ influx (snd answer) = influx q)
  /\ (n < 100 -> fetched = [] ->
      (exists b, fst answer = Response b
         /\ BackfillResponse.status b = "failed"
         /\ BackfillResponse.candlesWritten b = 0)
      /\ influx (snd answer) = influx q)
  /\ (n < 100 -> fetched <> [] ->
      (exists b, fst answer = Response b
         /\ BackfillResponse.status b = "success"
         /\ (DataAdapter.write_api self = true ->
             times_in_range fetched = true ->
             snd (write_points (influx q) (map point_of_candle fetched)) = None ->
             BackfillResponse.candlesWritten b = len fetched)
         /\ (DataAdapter.write_api self = false
             \/ times_in_range fetched = false
             \/ (exists e, snd (write_points (influx q)
                                  (map point_of_candle fetched)) = Some e) ->
             BackfillResponse.candlesWritten b = 0))
      /\ influx (snd answer)
         = (if DataAdapter.write_api self && times_in_range fetched
            then fst (write_points (influx q) (map point_of_candle fetched))
            else influx q)).
Proof.
  intros n fetched answer.
  destruct (check_influx_candle_count_frame (BackfillRequest.symbol request)
              (BackfillRequest.interval request) 24 q) as [Hstore _].
  unfold answer, backfill_candles, bind. fold n in Hstore |- *.
  destruct (check_influx_candle_count self (BackfillRequest.symbol request)
              (BackfillRequest.interval request) 24 q) as [n' q1] eqn:Hcount.
  simpl in n, Hstore. subst n. simpl.
  destruct (Z.leb_spec 100 n') as [Hcov|Hlow].
  { split; [|split]; try (intros; lia).
    intros _. simpl. split; [|exact Hstore]. eexists. repeat split. }
  destruct (get_candles_from_binance_run (BackfillRequest.symbol request)
              (BackfillRequest.interval request) (BackfillRequest.limit request) q1)
    as (Hfc & Hfstore & _ & _).
  fold fetched in Hfc.
  destruct (get_candles_from_binance binance (BackfillRequest.symbol request)
              (BackfillRequest.interval request) (BackfillRequest.limit request) q1)
    as [fc q2] eqn:Hfetch.
  simpl in Hfc, Hfstore. subst fc.
  split; [intros; lia|].
  destruct fetched as [|c fetched'] eqn:Hfetched; simpl.
  { split; [|intros _ Hne; congruence].
    intros _ _. split; [|congruence]. eexists. repeat split. }
  split; [intros _ Heq; discriminate Heq|].
  intros _ _.
  destruct (write_candles_to_influx_run (c :: fetched') q2)
    as (_ & _ & Hwstore & Hwok).
  pose proof (write_candles_to_influx_nothing (c :: fetched') q2) as Hwzero.
  destruct (write_candles_to_influx self (c :: fetched') q2) as [w q3].
  simpl in Hwstore, Hwok, Hwzero |- *.
  rewrite Hfstore, Hstore in Hwstore, Hwok, Hwzero.
  split.
  - eexists. split; [reflexivity|]. simpl. split; [reflexivity|]. split.
    + intros Hapi Hrange Hnone.
      apply Hwok; [exact Hapi|congruence|exact Hrange|exact Hnone].
    + intros [Hoff|[Hout|He]]; apply Hwzero.
      * left. exact Hoff.
      * right. right. left. exact Hout.
      * right. right. right. exact He.
  - rewrite andb_true_r in Hwstore. exact Hwstore.
Qed.

(** C4, amended.  On a second [backfill_candles] with the same request, run
    on the process as the first left it: it answers [skipped] with 0 written
    when the count then read is at least 100, and [failed] with 0 written
    when the count is below 100 and the exchange gives no candles; when the
    count is still below 100 and the exchange gives candles, the answer is
    [success], with [candlesWritten] the number of candles fetched when the
    write API exists, every candle time is one [datetime] can hold and the
    write of the points does not raise, and 0 when one of the three fails.
    On a store whose writes are idempotent, and unless the write of the
    fetched candles raises, the second run leaves the store as the first
    left it. *)
Theorem backfill_twice_resubmits :
  forall (request : BackfillRequest.t) (p : process S),
    let first := backfill_candles self binance request p in
    let second := backfill_candles self binance request (snd first) in
    let recount :=
      fst (check_influx_candle_count self (BackfillRequest.symbol request)
             (BackfillRequest.interval request) 24 (snd first)) in
    let fetched :=
      exchange_candles binance (BackfillRequest.symbol request)
        (BackfillRequest.interval request) (BackfillRequest.limit request) in
    (100 <= recount ->
     exists b, fst second = Response b
       /\ BackfillResponse.status b = "skipped"
       /\ BackfillResponse.candlesWritten b = 0)
    /\ (recount < 100 -> fetched = [] ->
        exists b, fst second = Response b
          /\ BackfillResponse.status b = "failed"
          /\ BackfillResponse.candlesWritten b = 0)
    /\ (recount < 100 -> fetched <> [] ->
        exists b, fst second = Response b
          /\ BackfillResponse.status b = "success"
          /\ (DataAdapter.write_api self = true ->
              times_in_range fetched = true ->
              snd (write_points (influx (snd first))
                     (map point_of_candle fetched)) = None ->
              BackfillResponse.candlesWritten b = len fetched)
          /\ (DataAdapter.write_api self = false
              \/ times_in_range fetched = false
              \/ (exists e, snd (write_points (influx (snd first))
                                   (map point_of_candle fetched)) = Some e) ->
              BackfillResponse.candlesWritten b = 0))
    /\ (IdempotentWrites S ->
        snd (write_points (influx p) (map point_of_candle fetched)) = None ->
        influx (snd second) = influx (snd first)).
Proof.
  intros request p first second recount fetched.
  destruct (backfill_candles_run request (snd first)) as (Hskip2 & Hfail2 & Hok2).
  fold second recount fetched in Hskip2, Hfail2, Hok2.
  split; [intros Hc; exact (proj1 (Hskip2 Hc))|].
  split; [intros Hc Hf; exact (proj1 (Hfail2 Hc Hf))|].
  split; [intros Hc Hf; exact (proj1 (Hok2 Hc Hf))|].
  intros Hidem Hnone.
  destruct (backfill_candles_run request p) as (Hskip1 & Hfail1 & Hok1).
  fold first fetched in Hskip1, Hfail1, Hok1.
  set (count := fst (check_influx_candle_count self (BackfillRequest.symbol request)
                       (BackfillRequest.interval request) 24 p)) in *.
  assert (Hsame : influx (snd first) = influx p -> recount = count).
  { intros Heq. apply check_influx_candle_count_store. exact Heq. }
  destruct (Z_le_gt_dec 100 count) as [Hcov|Hlow].
  - destruct (Hskip1 Hcov) as [_ Hs1].
    apply Hskip2. rewrite (Hsame Hs1). exact Hcov.
  - assert (Hlow' : count < 100) by lia.
    destruct fetched as [|c fetched'] eqn:Hfetched.
    + destruct (Hfail1 Hlow' eq_refl) as [_ Hs1].
      apply Hfail2; [|reflexivity]. rewrite (Hsame Hs1). exact Hlow'.
    + assert (Hne : c :: fetched' <> []) by discriminate.
      destruct (Hok1 Hlow' Hne) as [_ Hs1].
      destruct (Z_le_gt_dec 100 recount) as [Hcov2|Hlow2].
      * apply Hskip2. exact Hcov2.
      * assert (Hlow2' : recount < 100) by lia.
        destruct (Hok2 Hlow2' Hne) as [_ Hs2].
        rewrite Hs2.
        destruct (DataAdapter.write_api self && times_in_range (c :: fetched'));
          [|reflexivity].
        apply (write_twice (influx p)).
        rewrite Hs1.
        destruct (write_points (influx p) (map point_of_candle (c :: fetched')))
          as [s1 raised].
        simpl in Hnone |- *. rewrite Hnone. reflexivity.
Qed.

End DataProperties.

(** ** Strings *)

Lemma prefix_append (needle post : string) :
  String.prefix needle (needle +:+ post) = true.
Proof.
  induction needle as [|a needle IH]; simpl.
  - destruct post; reflexivity.
  - destruct (Ascii.ascii_dec a a) as [_|Hne]; [exact IH|congruence].
Qed.

Lemma contains_unfold (needle haystack : string) :
  contains needle haystack
  = String.prefix needle haystack
    || match haystack with
       | EmptyString => false
       | String _ rest => contains needle rest
       end.
Proof. destruct haystack; reflexivity. Qed.

Lemma substring_of_contains (needle haystack : string) :
  substring_of needle haystack -> contains needle haystack = true.
Proof.
  intros (pre & post & ->).
  induction pre as [|a pre IH].
  - rewrite contains_unfold. change ("" +:+ needle +:+ post) with (needle +:+ post).
    rewrite prefix_append. reflexivity.
  - change (String a pre +:+ needle +:+ post)
      with (String a (pre +:+ needle +:+ post)).
    rewrite contains_unfold. cbv beta iota.
    rewrite IH. apply orb_true_r.
Qed.

(** ** The in-memory store *)

Lemma upsert_points_lookup (pts : list Point.t)
    (m : gmap (string * string * Z) OHLCV.t) (k : string * string * Z) :
  upsert_points pts m !! k
  = match upsert_points pts ∅ !! k with
    | Some v => Some v
    | None => m !! k
    end.
Proof.
  unfold upsert_points.
  induction pts as [|pt pts IH] using rev_ind; simpl.
  - rewrite lookup_empty. reflexivity.
  - rewrite !foldl_app. simpl.
    destruct (decide (key_of_point pt = k)) as [->|Hne].
    + rewrite !lookup_insert_eq. reflexivity.
    + rewrite !lookup_insert_ne by exact Hne. exact IH.
Qed.

Lemma upsert_points_twice (pts : list Point.t)
    (m : gmap (string * string * Z) OHLCV.t) :
  upsert_points pts (upsert_points pts m) = upsert_points pts m.
Proof.
  apply map_eq. intros k.
  rewrite (upsert_points_lookup pts (upsert_points pts m)).
  rewrite (upsert_points_lookup pts m).
  destruct (upsert_points pts ∅ !! k); reflexivity.
Qed.

#[export] Instance MemStore_idempotent : IdempotentWrites MemStore.
Proof.
  intros s s' pts. simpl.
  destruct (ms_fault s) as [e|] eqn:Hfault; [discriminate|].
  intros Heq. injection Heq as <-. simpl.
  rewrite upsert_points_twice. reflexivity.
Qed.

(** * The properties on sample data *)

(** The covered store holds 100 candles in the window: the backfill is
    skipped, with the count in the message and no exchange call. *)
Lemma backfill_skips_when_covered_witness :
  100 <= fst (check_influx_candle_count adapter_up "BTCUSDT" "1m" 24
                (start_process covered_store))
  /\ fst (backfill_candles adapter_up binance_up default_request
            (start_process covered_store))
     = Response
         {| BackfillResponse.symbol := "BTCUSDT";
            BackfillResponse.interval := "1m";
            BackfillResponse.candlesWritten := 0;
            BackfillResponse.status := "skipped";
            BackfillResponse.message :=
              "Sufficient data exists (100 candles >= 100)" |}
  /\ exchange_calls
       (calls (snd (backfill_candles adapter_up binance_up default_request
                      (start_process covered_store)))) = 0%nat.
Proof.
  assert (Hcovered :
    100 <= fst (check_influx_candle_count adapter_up "BTCUSDT" "1m" 24
                  (start_process covered_store)))
    by (vm_compute; discriminate).
  split; [exact Hcovered|].
  destruct (backfill_skips_when_covered adapter_up binance_up default_request
              (start_process covered_store) Hcovered) as (Hanswer & _ & Hcalls).
  split.
  - rewrite Hanswer. vm_compute. reflexivity.
  - rewrite Hcalls. reflexivity.
Defined.

(** C7, as the claim states it, fails: when the klines call raises
    "Read timed out", the answer is [failed] with a message that does not
    contain that text. *)
Lemma backfill_failed_reason_omits_error :
  klines binance_down "BTCUSDT" "1m" 500 = Raises "Read timed out"
  /\ fst (backfill_candles adapter_up binance_down default_request
            (start_process empty_store))
     = Response
         {| BackfillResponse.symbol := "BTCUSDT";
            BackfillResponse.interval := "1m";
            BackfillResponse.candlesWritten := 0;
            BackfillResponse.status := "failed";
            BackfillResponse.message := "No candle data available from Binance" |}
  /\ ~ substring_of "Read timed out" "No candle data available from Binance".
Proof.
  split; [reflexivity|]. split; [vm_compute; reflexivity|].
  intros Hsub. apply substring_of_contains in Hsub. vm_compute in Hsub.
  discriminate Hsub.
Qed.

(** With the exchange unreachable and an empty store, the backfill fails
    after one exchange call and the error text is in the log. *)
Lemma backfill_failed_reason_is_fixed_witness :
  fst (backfill_candles adapter_up binance_down default_request
         (start_process empty_store))
  = Response
      {| BackfillResponse.symbol := "BTCUSDT";
         BackfillResponse.interval := "1m";
         BackfillResponse.candlesWritten := 0;
         BackfillResponse.status := "failed";
         BackfillResponse.message := "No candle data available from Binance" |}
  /\ exchange_calls
       (calls (snd (backfill_candles adapter_up binance_down default_request
                      (start_process empty_store)))) = 1%nat
  /\ In (ERROR, "Error fetching candles from Binance for BTCUSDT: Read timed out")
       (log (snd (backfill_candles adapter_up binance_down default_request
                    (start_process empty_store)))).
Proof.
  assert (Hbelow :
    fst (check_influx_candle_count adapter_up "BTCUSDT" "1m" 24
           (start_process empty_store)) < 100)
    by (vm_compute; reflexivity).
  destruct (backfill_failed_reason_is_fixed adapter_up binance_down
              default_request (start_process empty_store) "Read timed out"
              eq_refl Hbelow) as (Hanswer & _ & Hcalls & _ & Hlog).
  split; [exact Hanswer|]. split; [exact Hcalls|].
  rewrite Hlog. apply in_or_app. right. left. reflexivity.
Defined.

(** C2.  The code does not do what the claim says on a populated store.
    The covered store answers the candle query for [limit = 100] with 100
    records, which is at least [min(50, 100 // 2) = 50]; reading the first of
    them with [row.get] raises, so the store read gives no candle and logs
    the error, and [get_chart_candles] goes to the exchange and answers with
    its one candle tagged [binance]. *)
Theorem get_chart_candles_ignores_populated_store :
  match query_candles covered_store "BTCUSDT" "1m" 100 with
  | Returns tables => len (concat tables)
  | Raises _ => 0
  end = 100
  /\ Z.min 50 (100 / 2) = 50
  /\ get_candles_from_influx adapter_up "BTCUSDT" "1m" 100
       (start_process covered_store)
     = ([],
        {| influx := covered_store;
           calls := [QueryCandles "BTCUSDT" "1m" 100];
           log := [(WARNING,
                    "Error retrieving candles from InfluxDB for BTCUSDT 1m: 'FluxRecord' object has no attribute 'get'")] |})
  /\ fst (get_chart_candles adapter_up binance_up "BTCUSDT" "1m" 100
            (start_process covered_store))
     = Response
         {| CandlesResponse.candles :=
              [candle_of_kline "BTCUSDT" "1m" (sample_kline (1699999920 * 1000))];
            CandlesResponse.symbol := "BTCUSDT";
            CandlesResponse.interval := "1m";
            CandlesResponse.count := 1;
            CandlesResponse.source := "binance" |}
  /\ exchange_calls
       (calls (snd (get_chart_candles adapter_up binance_up "BTCUSDT" "1m" 100
                      (start_process covered_store)))) = 1%nat.
Proof.
  split; [vm_compute; reflexivity|].
  split; [reflexivity|].
  split; [vm_compute; reflexivity|].
  split; vm_compute; reflexivity.
Qed.

(** C4, as the claim states it, fails: with an empty store and an exchange
    that gives one candle, the second of two backfills in a row is neither
    [skipped] nor reports 0 candles written, although it leaves the store as
    the first left it. *)
Lemma backfill_second_run_reports_written_again :
  fst (backfill_candles adapter_up binance_up one_candle_request
         (snd (backfill_candles adapter_up binance_up one_candle_request
                 (start_process empty_store))))
  = Response
      {| BackfillResponse.symbol := "BTCUSDT";
         BackfillResponse.interval := "1m";
         BackfillResponse.candlesWritten := 1;
         BackfillResponse.status := "success";
         BackfillResponse.message := "Successfully backfilled 1 candles" |}
  /\ influx (snd (backfill_candles adapter_up binance_up one_candle_request
                    (snd (backfill_candles adapter_up binance_up one_candle_request
                            (start_process empty_store)))))
     = influx (snd (backfill_candles adapter_up binance_up one_candle_request
                      (start_process empty_store))).
Proof.
  split; vm_compute; reflexivity.
Qed.

(** The in-memory store has idempotent writes: the second backfill leaves it
    as the first left it. *)
Lemma backfill_twice_resubmits_witness :
  influx (snd (backfill_candles adapter_up binance_up one_candle_request
                 (snd (backfill_candles adapter_up binance_up one_candle_request
                         (start_process empty_store)))))
  = influx (snd (backfill_candles adapter_up binance_up one_candle_request
                   (start_process empty_store))).
Proof.
  pose proof (backfill_twice_resubmits adapter_up binance_up one_candle_request
                (start_process empty_store)) as Htwice.
  cbv zeta in Htwice. destruct Htwice as (_ & _ & _ & Hstore).
  apply Hstore; [exact MemStore_idempotent|]. vm_compute. reflexivity.
Defined.

(** * Further properties of the bot supervisor *)

Lemma valid_action_cases (action : string) :
  valid_action action = true ->
  action = "start" \/ action = "pause" \/ action = "stop".
Proof.
  unfold valid_action. simpl. intros Hvalid.
  destruct (String.eqb_spec action "start") as [Hs|_]; [left; exact Hs|].
  destruct (String.eqb_spec action "pause") as [Hp|_]; [right; left; exact Hp|].
  destruct (String.eqb_spec action "stop") as [Ht|_]; [right; right; exact Ht|].
  discriminate Hvalid.
Qed.

(** X1. A control request with a valid action sets the state to [running],
    [paused] or [stopped] according to the action and never to
    [disconnected]; [stop] empties the open positions and the other two
    actions keep them; the heartbeat time, the profit and the signal history
    are left as they were; and the response reports the state, symbol and
    timeframe that are stored after the request. *)
Theorem bot_control_sets_state_by_action :
  forall (now : datetime) (request : BotControlRequest.t) (m : BotManager.t),
    valid_action (BotControlRequest.action request) = true ->
    let m' := snd (bot_control now request m) in
    BotManager.state m' = commanded_state (BotControlRequest.action request)
    /\ BotManager.state m' <> "disconnected"
    /\ (BotControlRequest.action request = "stop" ->
        BotManager.open_positions m' = [])
    /\ (BotControlRequest.action request <> "stop" ->
        BotManager.open_positions m' = BotManager.open_positions m)
    /\ BotManager.last_heartbeat m' = BotManager.last_heartbeat m
    /\ BotManager.pnl m' = BotManager.pnl m
    /\ BotManager.last_signals m' = BotManager.last_signals m
    /\ (exists r, fst (bot_control now request m) = Response r
          /\ ControlResponse.newState r = BotManager.state m'
          /\ ControlResponse.symbol r = BotManager.current_symbol m'
          /\ ControlResponse.tf r = BotManager.current_tf m').
Proof.
  intros now request m Hvalid m'. subst m'.
  unfold bot_control. rewrite Hvalid. simpl.
  destruct (valid_action_cases _ Hvalid) as [Ha|[Ha|Ha]]; rewrite Ha; simpl;
    (split; [reflexivity|]); (split; [discriminate|]);
    (split; [intros H; try reflexivity; discriminate H|]);
    (split; [intros H; try reflexivity; congruence|]);
    (split; [reflexivity|]); (split; [reflexivity|]); (split; [reflexivity|]);
    eexists; repeat split.
Qed.

(** A [stop] on the sample supervisor, after it reported one position. *)
Lemma bot_control_sets_state_by_action_witness :
  let m := BotManager.update_heartbeat t0
             (BotHeartbeat.mk "" "running" "ETHUSDT" "1h" None
                [[("side", "long")]] 0%float)
             (BotManager.init t0) in
  BotManager.open_positions m = [[("side", "long")]]
  /\ BotManager.state
       (snd (bot_control t0 (BotControlRequest.mk "stop" None None) m))
     = "stopped"
  /\ BotManager.open_positions
       (snd (bot_control t0 (BotControlRequest.mk "stop" None None) m)) = [].
Proof.
  cbv zeta.
  destruct (bot_control_sets_state_by_action t0
              (BotControlRequest.mk "stop" None None)
              (BotManager.update_heartbeat t0
                 (BotHeartbeat.mk "" "running" "ETHUSDT" "1h" None
                    [[("side", "long")]] 0%float)
                 (BotManager.init t0)) eq_refl)
    as (Hstate & _ & Hstop & _).
  split; [reflexivity|]. split; [exact Hstate|]. apply Hstop. reflexivity.
Defined.

(** X2. An action other than [start], [pause] and [stop] (the comparison is
    exact, so [START] is one) is refused with a 400 whose detail names the
    action, and the supervisor is left exactly as it was, whatever symbol and
    timeframe the request carries. *)
Theorem bot_control_rejects_other_actions :
  forall (now : datetime) (request : BotControlRequest.t) (m : BotManager.t),
    BotControlRequest.action request <> "start" ->
    BotControlRequest.action request <> "pause" ->
    BotControlRequest.action request <> "stop" ->
    bot_control now request m
    = (HTTPException 400
         ("Invalid action: " +:+ BotControlRequest.action request), m).
Proof.
  intros now request m Hstart Hpause Hstop.
  unfold bot_control, valid_action. simpl.
  apply String.eqb_neq in Hstart, Hpause, Hstop.
  rewrite Hstart, Hpause, Hstop. reflexivity.
Qed.

Lemma bot_control_rejects_other_actions_witness :
  bot_control t0 (BotControlRequest.mk "START" (Some "SOLUSDT") (Some "5m"))
    running_manager
  = (HTTPException 400 "Invalid action: START", running_manager).
Proof.
  apply (bot_control_rejects_other_actions t0
           (BotControlRequest.mk "START" (Some "SOLUSDT") (Some "5m"))
           running_manager); discriminate.
Defined.

(** X3. A control request does not refresh the heartbeat time: when the last
    heartbeat is more than 60 seconds old, a [start] is answered with
    [running], and the status read that follows it reports [disconnected]
    and stores it. *)
Theorem start_on_stale_heartbeat_reads_disconnected :
  forall (now later : datetime) (request : BotControlRequest.t)
         (m : BotManager.t),
    BotControlRequest.action request = "start" ->
    seconds 60 < later - BotManager.last_heartbeat m ->
    BotManager.state (snd (bot_control now request m)) = "running"
    /\ (exists st, fst (bot_status later (snd (bot_control now request m)))
                   = Response st
          /\ BotStatus.state st = "disconnected")
    /\ BotManager.state
         (snd (bot_status later (snd (bot_control now request m))))
       = "disconnected".
Proof.
  intros now later request m Hstart Hold.
  apply is_heartbeat_stale_age in Hold.
  unfold bot_control, valid_action. rewrite Hstart. simpl.
  split; [reflexivity|].
  unfold bot_status, BotManager.is_heartbeat_stale in *. simpl.
  rewrite Hold. simpl. split; [|reflexivity].
  eexists. split; reflexivity.
Qed.

Lemma start_on_stale_heartbeat_reads_disconnected_witness :
  BotManager.state
    (snd (bot_status (t0 + seconds 90)
            (snd (bot_control (t0 + seconds 89)
                    (BotControlRequest.mk "start" None None)
                    (BotManager.init t0)))))
  = "disconnected".
Proof.
  apply (start_on_stale_heartbeat_reads_disconnected (t0 + seconds 89)
           (t0 + seconds 90) (BotControlRequest.mk "start" None None)
           (BotManager.init t0) eq_refl).
  vm_compute. reflexivity.
Defined.

Lemma bot_status_only_disconnects (now : datetime) (m : BotManager.t) :
  snd (bot_status now m) = m
  \/ (BotManager.state m = "running"
      /\ snd (bot_status now m) = BotManager.assign_state "disconnected" m).
Proof.
  unfold bot_status.
  destruct (BotManager.is_heartbeat_stale now 60 m); [|left; reflexivity].
  destruct (String.eqb_spec (BotManager.state m) "running") as [Hrun|Hrun];
    [|left; reflexivity].
  right. split; [exact Hrun|reflexivity].
Qed.

(** X4. However many status reads are served in a row, and at whatever
    times, the supervisor afterwards is either the one before them, or it
    was [running] and is now the same supervisor with the state
    [disconnected]: reads touch no other field and make no other change of
    state. *)
Theorem status_reads_only_disconnect :
  forall (events : list event) (m : BotManager.t),
    forallb is_status_read events = true ->
    serve_all events m = m
    \/ (BotManager.state m = "running"
        /\ serve_all events m = BotManager.assign_state "disconnected" m).
Proof.
  induction events as [|e events IH]; intros m Hreads; simpl.
  - left. reflexivity.
  - simpl in Hreads. apply andb_true_iff in Hreads as [He Hrest].
    destruct e as [? ?|? ?|now]; try discriminate He. simpl.
    destruct (bot_status_only_disconnects now m) as [Hsame|[Hrun Hdis]].
    + rewrite Hsame. apply IH. exact Hrest.
    + rewrite Hdis. right. split; [exact Hrun|].
      destruct (IH (BotManager.assign_state "disconnected" m) Hrest)
        as [Hsame|[Hrun' _]]; [exact Hsame|].
      simpl in Hrun'. discriminate Hrun'.
Qed.

Lemma status_reads_only_disconnect_witness :
  serve_all [StatusRead (t0 + seconds 10); StatusRead (t0 + seconds 70);
             StatusRead (t0 + seconds 71)] running_manager
  = BotManager.assign_state "disconnected" running_manager.
Proof.
  destruct (status_reads_only_disconnect
              [StatusRead (t0 + seconds 10); StatusRead (t0 + seconds 70);
               StatusRead (t0 + seconds 71)] running_manager eq_refl)
    as [Hsame|[_ Hdis]].
  - apply (f_equal BotManager.state) in Hsame. vm_compute in Hsame.
    discriminate Hsame.
  - exact Hdis.
Defined.

Lemma heartbeat_forgets_fields (now : datetime) (hb : BotHeartbeat.t)
    (m1 m2 : BotManager.t) :
  BotManager.last_signals m1 = BotManager.last_signals m2 ->
  BotManager.update_heartbeat now hb m1 = BotManager.update_heartbeat now hb m2.
Proof.
  intros Hsignals. unfold BotManager.update_heartbeat. rewrite Hsignals.
  reflexivity.
Qed.

Lemma serve_keeps_signals (m : BotManager.t) (e : event) :
  is_heartbeat e = false ->
  BotManager.last_signals (serve m e) = BotManager.last_signals m.
Proof.
  intros He. destruct e as [? ?|now request|now]; [discriminate He| |]; simpl.
  - unfold bot_control.
    destruct (negb (valid_action (BotControlRequest.action request)));
      reflexivity.
  - destruct (bot_status_only_disconnects now m) as [->|[_ ->]]; reflexivity.
Qed.

(** X5. The last heartbeat wins: after any run of control requests and
    status reads, a heartbeat leaves the supervisor exactly as it would have
    been had the heartbeat arrived without them. *)
Theorem heartbeat_overrides_commands :
  forall (events : list event) (now : datetime) (hb : BotHeartbeat.t)
         (m : BotManager.t),
    forallb (fun e => negb (is_heartbeat e)) events = true ->
    serve_all (events ++ [Heartbeat now hb]) m = serve_all [Heartbeat now hb] m.
Proof.
  intros events now hb m Hnone.
  unfold serve_all. rewrite foldl_app. simpl.
  apply heartbeat_forgets_fields.
  revert m. induction events as [|e events IH]; intros m; simpl.
  - reflexivity.
  - simpl in Hnone. apply andb_true_iff in Hnone as [He Hrest].
    rewrite (IH Hrest). apply serve_keeps_signals.
    apply negb_true_iff. exact He.
Qed.

Lemma heartbeat_overrides_commands_witness :
  serve_all [Control t0 (BotControlRequest.mk "stop" (Some "SOLUSDT") None);
             StatusRead (t0 + seconds 61);
             Heartbeat (t0 + seconds 62) running_heartbeat] (BotManager.init t0)
  = serve_all [Heartbeat (t0 + seconds 62) running_heartbeat]
      (BotManager.init t0).
Proof.
  apply (heartbeat_overrides_commands
           [Control t0 (BotControlRequest.mk "stop" (Some "SOLUSDT") None);
            StatusRead (t0 + seconds 61)]
           (t0 + seconds 62) running_heartbeat (BotManager.init t0) eq_refl).
Defined.

(** X6. What a status read reports is what is stored once the read is done:
    the response is the status of the supervisor after the read, in every
    field. *)
Theorem bot_status_reports_what_is_stored :
  forall (now : datetime) (m : BotManager.t),
    fst (bot_status now m)
    = Response (BotManager.get_status (snd (bot_status now m))).
Proof.
  intros now m. unfold bot_status.
  destruct (BotManager.is_heartbeat_stale now 60 m
            && String.eqb (BotManager.state m) "running"); reflexivity.
Qed.

(** * Further properties of the data endpoints *)

Section MoreDataProperties.
Context {S : Type} `{InfluxDB S}.
Variable self : DataAdapter.t.
Variable binance : Binance.

Lemma get_chart_candles_run (symbol interval : string) (limit : Z)
    (p : process S) :
  let fetched := exchange_candles binance symbol interval limit in
  let answer := get_chart_candles self binance symbol interval limit p in
  fst answer
  = (if truthy_list fetched
     then Response {| CandlesResponse.candles := fetched;
                      CandlesResponse.symbol := symbol;
                      CandlesResponse.interval := interval;
                      CandlesResponse.count := len fetched;
                      CandlesResponse.source := "binance" |}
     else HTTPException 404
            ("No candle data available for " +:+ symbol +:+ " " +:+ interval))
  /\ influx (snd answer)
     = (if DataAdapter.write_api self && truthy_list fetched
           && times_in_range fetched
        then fst (write_points (influx p) (map point_of_candle fetched))
        else influx p)
  /\ exchange_calls (calls (snd answer)) = Datatypes.S (exchange_calls (calls p))
  /\ In (GetKlines symbol interval limit) (calls (snd answer)).
Proof.
  intros fetched answer.
  destruct (get_candles_from_influx_frame self symbol interval limit p)
    as [Hstore Hcalls].
  pose proof (get_candles_from_influx_empty self symbol interval limit p)
    as Hempty.
  unfold answer, get_chart_candles, bind.
  destruct (get_candles_from_influx self symbol interval limit p) as [cs p'].
  simpl in Hstore, Hcalls, Hempty. subst cs. simpl.
  set (q := mk_process (influx p') (calls p') _).
  destruct (get_candles_from_binance_run binance symbol interval limit q)
    as (Hfc & Hfstore & Hqcalls & _).
  fold fetched in Hfc.
  destruct (get_candles_from_binance binance symbol interval limit q)
    as [fc q'] eqn:Hfetch.
  simpl in Hfc, Hfstore, Hqcalls. subst fc.
  assert (Hq : influx q' = influx p) by (rewrite Hfstore; subst q; exact Hstore).
  assert (Hin : In (GetKlines symbol interval limit) (calls q')).
  { rewrite Hqcalls. apply in_or_app. right. left. reflexivity. }
  assert (Hone : exchange_calls (calls q') = Datatypes.S (exchange_calls (calls p))).
  { rewrite Hqcalls, exchange_calls_exchange by reflexivity.
    subst q. simpl. rewrite Hcalls. reflexivity. }
  destruct fetched as [|c fetched'] eqn:Hfetched; simpl.
  - split; [reflexivity|]. rewrite andb_false_r. simpl.
    split; [exact Hq|]. split; assumption.
  - pose proof (write_candles_to_influx_calls self (c :: fetched') q' _ Hin)
      as Hin'.
    destruct (write_candles_to_influx_run self (c :: fetched') q')
      as (Hw & _ & Hwstore & _).
    destruct (write_candles_to_influx self (c :: fetched') q') as [w q''].
    simpl in Hw, Hwstore, Hin' |- *. split; [reflexivity|].
    split; [rewrite Hwstore, Hq; reflexivity|].
    split; [congruence|exact Hin'].
Qed.

(** X7. A response of [get_chart_candles] is never empty: it holds at least
    one candle, its [count] is the number of candles it holds, it repeats the
    requested symbol and interval, and its source is [influxdb] or
    [binance]. *)
Theorem get_chart_candles_response_never_empty :
  forall (symbol interval : string) (limit : Z) (p : process S)
         (r : CandlesResponse.t),
    fst (get_chart_candles self binance symbol interval limit p) = Response r ->
    CandlesResponse.candles r <> []
    /\ CandlesResponse.count r = len (CandlesResponse.candles r)
    /\ 1 <= CandlesResponse.count r
    /\ CandlesResponse.symbol r = symbol
    /\ CandlesResponse.interval r = interval
    /\ (CandlesResponse.source r = "influxdb"
        \/ CandlesResponse.source r = "binance").
Proof.
  intros symbol interval limit p r Hr.
  destruct (get_chart_candles_run symbol interval limit p) as (Hans & _).
  rewrite Hans in Hr.
  destruct (exchange_candles binance symbol interval limit) as [|c cs];
    [discriminate Hr|].
  simpl in Hr. injection Hr as <-. simpl.
  split; [discriminate|]. split; [reflexivity|].
  split; [unfold len; simpl; lia|].
  split; [reflexivity|]. split; [reflexivity|]. right. reflexivity.
Qed.

(** X8. [get_chart_candles] raises exactly when the store result is not
    enough (empty, or below [min(50, limit // 2)]) and the exchange gives no
    candle; what it raises is the 404 naming the symbol and the interval.  So
    store candles that are too few are not served even when the exchange is
    down. *)
Theorem get_chart_candles_not_found_iff :
  forall (symbol interval : string) (limit : Z) (p : process S),
    let stored := fst (get_candles_from_influx self symbol interval limit p) in
    let answer := get_chart_candles self binance symbol interval limit p in
    ((exists status detail, fst answer = HTTPException status detail)
     <-> (stored = [] \/ len stored < Z.min 50 (limit / 2))
         /\ exchange_candles binance symbol interval limit = [])
    /\ (forall status detail, fst answer = HTTPException status detail ->
        status = 404
        /\ detail = "No candle data available for " +:+ symbol +:+ " " +:+ interval).
Proof.
  intros symbol interval limit p stored answer.
  destruct (get_chart_candles_run symbol interval limit p) as (Hans & _).
  fold answer in Hans.
  assert (Hempty : stored = [])
    by apply get_candles_from_influx_empty.
  rewrite Hans.
  destruct (exchange_candles binance symbol interval limit) as [|c cs]; simpl.
  - split.
    + split; [|intros _; eexists; eexists; reflexivity].
      intros _. split; [left; exact Hempty|reflexivity].
    + intros status detail Hexc. injection Hexc as <- <-.
      split; reflexivity.
  - split.
    + split; [intros (status & detail & Hexc); discriminate Hexc|].
      intros [_ Hnil]. discriminate Hnil.
    + intros status detail Hexc. discriminate Hexc.
Qed.

(** X9. [get_chart_candles] changes the store only by writing the candles it
    fetched: when the write API exists, the exchange gave candles and every
    candle time is one [datetime] can hold, the store afterwards is the one
    the write of exactly those candles' points leaves; when the write API is
    missing, the exchange gave nothing, or a candle time is out of range, no
    write is made and the store is unchanged.  The answer does not depend on
    how the write went. *)
Theorem get_chart_candles_writes_fetched_candles :
  forall (symbol interval : string) (limit : Z) (p : process S),
    let fetched := exchange_candles binance symbol interval limit in
    let answer := get_chart_candles self binance symbol interval limit p in
    (DataAdapter.write_api self = true -> fetched <> [] ->
     times_in_range fetched = true ->
     influx (snd answer)
     = fst (write_points (influx p) (map point_of_candle fetched)))
    /\ (DataAdapter.write_api self = false \/ fetched = []
        \/ times_in_range fetched = false ->
        influx (snd answer) = influx p)
    /\ (fetched <> [] ->
        fst answer
        = Response {| CandlesResponse.candles := fetched;
                      CandlesResponse.symbol := symbol;
                      CandlesResponse.interval := interval;
                      CandlesResponse.count := len fetched;
                      CandlesResponse.source := "binance" |}).
Proof.
  intros symbol interval limit p fetched answer.
  destruct (get_chart_candles_run symbol interval limit p)
    as (Hans & Hinflux & _).
  fold fetched answer in Hans, Hinflux.
  split; [|split].
  - intros Hapi Hne Hrange. rewrite Hinflux, Hapi, Hrange.
    destruct fetched; [congruence|reflexivity].
  - intros [Hapi|[Hnil|Hout]]; rewrite Hinflux.
    + rewrite Hapi. reflexivity.
    + rewrite Hnil. rewrite andb_false_r. reflexivity.
    + rewrite Hout. rewrite andb_false_r. reflexivity.
  - intros Hne. rewrite Hans. destruct fetched; [congruence|reflexivity].
Qed.

(** X10. [get_chart_candles] never answers from the store: the store read
    gives no candle whatever the store holds, every request makes exactly one
    exchange call, the klines request with its [limit], and a response is
    always the exchange's candles tagged [binance]. *)
Theorem get_chart_candles_always_asks_exchange :
  forall (symbol interval : string) (limit : Z) (p : process S),
    let fetched := exchange_candles binance symbol interval limit in
    let answer := get_chart_candles self binance symbol interval limit p in
    fst (get_candles_from_influx self symbol interval limit p) = []
    /\ exchange_calls (calls (snd answer))
       = Datatypes.S (exchange_calls (calls p))
    /\ In (GetKlines symbol interval limit) (calls (snd answer))
    /\ (forall r, fst answer = Response r ->
        CandlesResponse.source r = "binance"
        /\ CandlesResponse.candles r = fetched).
Proof.
  intros symbol interval limit p fetched answer.
  destruct (get_chart_candles_run symbol interval limit p)
    as (Hans & _ & Hone & Hin).
  fold fetched answer in Hans, Hone, Hin.
  split; [apply get_candles_from_influx_empty|].
  split; [exact Hone|]. split; [exact Hin|].
  intros r Hr. rewrite Hans in Hr.
  destruct fetched as [|c cs]; [discriminate Hr|].
  simpl in Hr. injection Hr as <-. split; reflexivity.
Qed.

(** X11. [get_price] never writes to the store, and the calls it adds to the
    trace are at most one price query to the store (none when the client is
    missing) followed by at most one ticker call to the exchange. *)
Theorem get_price_leaves_store_alone :
  forall (now now_exchange : datetime) (symbol : string) (p : process S),
    let answer := get_price self binance now now_exchange symbol p in
    influx (snd answer) = influx p
    /\ exists to_exchange : list call,
         (to_exchange = [] \/ to_exchange = [GetTickerPrice symbol])
         /\ calls (snd answer)
            = (calls p
               ++ (if DataAdapter.influx_client self
                   then [QueryLastPrice symbol] else [])
               ++ to_exchange)%list.
Proof.
  intros now now_exchange symbol p answer. subst answer.
  unfold get_price, get_latest_price_from_influx, get_price_from_binance.
  destruct (DataAdapter.influx_client self); run.
  - destruct (query_last_price (influx p) symbol) as [tables|e]; simpl.
    + destruct (first_record tables) as [row|]; simpl.
      * destruct (PriceRow.value row) as [v|e]; simpl.
        -- destruct (total_seconds_le now (PriceRow.time row) 300); simpl.
           ++ split; [reflexivity|]. exists []. split; [left; reflexivity|].
              reflexivity.
           ++ destruct (ticker_price binance symbol) as [data|e]; simpl;
                (split; [reflexivity|]); exists [GetTickerPrice symbol];
                (split; [right; reflexivity|]); rewrite <- app_assoc;
                reflexivity.
        -- destruct (ticker_price binance symbol) as [data|e']; simpl;
             (split; [reflexivity|]); exists [GetTickerPrice symbol];
             (split; [right; reflexivity|]); rewrite <- app_assoc;
             reflexivity.
      * destruct (ticker_price binance symbol) as [data|e]; simpl;
          (split; [reflexivity|]); exists [GetTickerPrice symbol];
          (split; [right; reflexivity|]); rewrite <- app_assoc;
          reflexivity.
    + destruct (ticker_price binance symbol) as [data|e']; simpl;
        (split; [reflexivity|]); exists [GetTickerPrice symbol];
        (split; [right; reflexivity|]); rewrite <- app_assoc;
        reflexivity.
  - destruct (ticker_price binance symbol) as [data|e]; simpl;
      (split; [reflexivity|]); exists [GetTickerPrice symbol];
      (split; [right; reflexivity|]); reflexivity.
Qed.

(** X12. [backfill_candles] always answers with a response, never with an
    exception, whatever the store and the exchange do: the response repeats
    the requested symbol and interval, its status is [skipped], [failed] or
    [success], the number of candles written lies between 0 and the number
    the exchange gave, and it is 0 unless the status is [success]. *)
Theorem backfill_always_responds :
  forall (request : BackfillRequest.t) (p : process S),
    exists b : BackfillResponse.t,
      fst (backfill_candles self binance request p) = Response b
      /\ BackfillResponse.symbol b = BackfillRequest.symbol request
      /\ BackfillResponse.interval b = BackfillRequest.interval request
      /\ (BackfillResponse.status b = "skipped"
          \/ BackfillResponse.status b = "failed"
          \/ BackfillResponse.status b = "success")
      /\ 0 <= BackfillResponse.candlesWritten b
         <= len (exchange_candles binance (BackfillRequest.symbol request)
                   (BackfillRequest.interval request)
                   (BackfillRequest.limit request))
      /\ (BackfillResponse.status b <> "success" ->
          BackfillResponse.candlesWritten b = 0).
Proof.
  intros request p.
  set (fetched := exchange_candles binance (BackfillRequest.symbol request)
                    (BackfillRequest.interval request)
                    (BackfillRequest.limit request)).
  assert (Hlen : 0 <= len fetched) by (unfold len; lia).
  unfold backfill_candles, bind.
  destruct (check_influx_candle_count self (BackfillRequest.symbol request)
              (BackfillRequest.interval request) 24 p) as [n q1].
  destruct (100 <=? n); simpl.
  { eexists. split; [reflexivity|]. simpl.
    split; [reflexivity|]. split; [reflexivity|].
    split; [left; reflexivity|]. split; [lia|]. reflexivity. }
  destruct (get_candles_from_binance_run binance (BackfillRequest.symbol request)
              (BackfillRequest.interval request) (BackfillRequest.limit request) q1)
    as (Hfc & _).
  fold fetched in Hfc.
  destruct (get_candles_from_binance binance (BackfillRequest.symbol request)
              (BackfillRequest.interval request) (BackfillRequest.limit request) q1)
    as [fc q2].
  simpl in Hfc. subst fc.
  destruct fetched as [|c fetched'] eqn:Hfetched; simpl.
  { eexists. split; [reflexivity|]. simpl.
    split; [reflexivity|]. split; [reflexivity|].
    split; [right; left; reflexivity|]. split; [lia|]. reflexivity. }
  destruct (write_candles_to_influx_run self (c :: fetched') q2)
    as (_ & Hw & _).
  destruct (write_candles_to_influx self (c :: fetched') q2) as [w q3].
  simpl in Hw |- *.
  eexists. split; [reflexivity|]. simpl.
  split; [reflexivity|]. split; [reflexivity|].
  split; [right; right; reflexivity|].
  split; [destruct Hw as [->| ->]; lia|]. congruence.
Qed.

(** X13. A backfill can succeed with nothing written: when the count read
    is below 100 and the exchange gives candles, but the write API is missing
    or the write raises, the answer is still [success], with 0 candles
    written and the message "Successfully backfilled 0 candles". *)
Theorem backfill_success_with_nothing_written :
  forall (request : BackfillRequest.t) (p : process S),
    let fetched :=
      exchange_candles binance (BackfillRequest.symbol request)
        (BackfillRequest.interval request) (BackfillRequest.limit request) in
    fst (check_influx_candle_count self (BackfillRequest.symbol request)
           (BackfillRequest.interval request) 24 p) < 100 ->
    fetched <> [] ->
    DataAdapter.write_api self = false
    \/ (exists e, snd (write_points (influx p) (map point_of_candle fetched))
                  = Some e) ->
    fst (backfill_candles self binance request p)
    = Response
        {| BackfillResponse.symbol := BackfillRequest.symbol request;
           BackfillResponse.interval := BackfillRequest.interval request;
           BackfillResponse.candlesWritten := 0;
           BackfillResponse.status := "success";
           BackfillResponse.message := "Successfully backfilled 0 candles" |}.
Proof.
  intros request p fetched Hlow Hne Hnowrite.
  destruct (check_influx_candle_count_frame self (BackfillRequest.symbol request)
              (BackfillRequest.interval request) 24 p) as [Hstore _].
  unfold backfill_candles, bind.
  destruct (check_influx_candle_count self (BackfillRequest.symbol request)
              (BackfillRequest.interval request) 24 p) as [n q1].
  simpl in Hlow, Hstore. apply Z.leb_gt in Hlow. simpl. rewrite Hlow.
  destruct (get_candles_from_binance_run binance (BackfillRequest.symbol request)
              (BackfillRequest.interval request) (BackfillRequest.limit request) q1)
    as (Hfc & Hfstore & _).
  fold fetched in Hfc.
  destruct (get_candles_from_binance binance (BackfillRequest.symbol request)
              (BackfillRequest.interval request) (BackfillRequest.limit request) q1)
    as [fc q2].
  simpl in Hfc, Hfstore. subst fc.
  assert (Hzero : fst (write_candles_to_influx self fetched q2) = 0).
  { apply write_candles_to_influx_nothing.
    destruct Hnowrite as [Hoff|He]; [left; exact Hoff|right; right; right].
    rewrite Hfstore, Hstore. exact He. }
  destruct fetched as [|c fetched']; [congruence|]. simpl.
  destruct (write_candles_to_influx self (c :: fetched') q2) as [w q3].
  simpl in Hzero. subst w. reflexivity.
Qed.

(** X14. The candles made of a klines answer are as many as the klines and
    in the same order; each carries the requested symbol and interval and
    the kline's five values, and its timestamp is the kline's open time cut
    to whole seconds: [1000 * timestamp <= open_time_ms < 1000 * timestamp
    + 1000]. *)
Theorem binance_candles_in_whole_seconds :
  forall (symbol interval : string) (limit : Z) (p : process S)
         (ks : list Kline.t),
    klines binance symbol interval limit = Returns ks ->
    let candles := fst (get_candles_from_binance binance symbol interval limit p) in
    length candles = length ks
    /\ forall (i : nat) (k : Kline.t),
         ks !! i = Some k ->
         exists c, candles !! i = Some c
           /\ Candle.symbol c = symbol
           /\ Candle.timeframe c = interval
           /\ 1000 * Candle.timestamp c <= Kline.open_time_ms k
              < 1000 * Candle.timestamp c + 1000
           /\ Candle.open c = Kline.open k
           /\ Candle.high c = Kline.high k
           /\ Candle.low c = Kline.low k
           /\ Candle.close c = Kline.close k
           /\ Candle.volume c = Kline.volume k.
Proof.
  intros symbol interval limit p ks Hks candles.
  destruct (get_candles_from_binance_run binance symbol interval limit p)
    as (Hfc & _).
  fold candles in Hfc. unfold exchange_candles in Hfc. rewrite Hks in Hfc.
  rewrite Hfc. split; [apply length_map|].
  intros i k Hk. exists (candle_of_kline symbol interval k).
  split; [rewrite list_lookup_fmap, Hk; reflexivity|].
  split; [reflexivity|]. split; [reflexivity|].
  split; [|repeat split].
  simpl.
  pose proof (Z.div_mod (Kline.open_time_ms k) 1000 ltac:(lia)) as Hdiv.
  pose proof (Z.mod_pos_bound (Kline.open_time_ms k) 1000 ltac:(lia)) as Hmod.
  lia.
Qed.

(** X15. [write_candles_to_influx] does not touch the store at all for an
    empty list or without a write API: it returns 0 and leaves the process,
    trace and log included, as it was.  With candles and a write API, a
    candle time outside the years 1 to 9999 stops it before any write: it
    returns 0 and the store and the trace are as they were.  Otherwise it
    makes exactly one write, of one point per candle in the same order, and
    returns the number of candles when that write does not raise and 0 when
    it does. *)
Theorem write_candles_to_influx_writes_once :
  forall (candles : list Candle.t) (p : process S),
    (DataAdapter.write_api self = false \/ candles = [] ->
     write_candles_to_influx self candles p = (0, p))
    /\ (DataAdapter.write_api self = true -> candles <> [] ->
        times_in_range candles = false ->
        fst (write_candles_to_influx self candles p) = 0
        /\ influx (snd (write_candles_to_influx self candles p)) = influx p
        /\ calls (snd (write_candles_to_influx self candles p)) = calls p)
    /\ (DataAdapter.write_api self = true -> candles <> [] ->
        times_in_range candles = true ->
        calls (snd (write_candles_to_influx self candles p))
        = (calls p ++ [WritePoints (map point_of_candle candles)])%list
        /\ influx (snd (write_candles_to_influx self candles p))
           = fst (write_points (influx p) (map point_of_candle candles))
        /\ fst (write_candles_to_influx self candles p)
           = match snd (write_points (influx p) (map point_of_candle candles)) with
             | None => len candles
             | Some _ => 0
             end).
Proof.
  intros candles p. unfold write_candles_to_influx. split; [|split].
  - intros [Hoff|Hnil].
    + rewrite Hoff. reflexivity.
    + rewrite Hnil. destruct (DataAdapter.write_api self); reflexivity.
  - intros Hapi Hne Hout. rewrite Hapi, points_of_candles_eq, Hout.
    destruct candles as [|c candles]; [congruence|]. run.
    repeat split.
  - intros Hapi Hne Hrange. rewrite Hapi, points_of_candles_eq, Hrange.
    destruct candles as [|c candles]; [congruence|]. run.
    destruct (write_points (influx p)
                (point_of_candle c :: map point_of_candle candles))
      as [s' [e|]]; simpl.
    + repeat split.
    + split; [reflexivity|]. split; [reflexivity|].
      unfold len. simpl. rewrite length_map. reflexivity.
Qed.

(** X16. The candles of the store are never read: [get_candles_from_influx]
    gives the empty list whatever the store answers, and leaves the store as
    it was.  When the answer holds a record, reading it raises and the
    warning logged names the missing [get]; when it holds none, the log says
    0 candles were retrieved. *)
Theorem influx_candles_are_never_read :
  forall (symbol interval : string) (limit : Z) (p : process S),
    fst (get_candles_from_influx self symbol interval limit p) = []
    /\ influx (snd (get_candles_from_influx self symbol interval limit p))
       = influx p
    /\ (forall tables,
          DataAdapter.influx_client self = true ->
          query_candles (influx p) symbol interval limit = Returns tables ->
          concat tables <> [] ->
          log (snd (get_candles_from_influx self symbol interval limit p))
          = (log p
             ++ [(WARNING,
                  "Error retrieving candles from InfluxDB for " +:+ symbol
                  +:+ " " +:+ interval
                  +:+ ": 'FluxRecord' object has no attribute 'get'")])%list)
    /\ (forall tables,
          DataAdapter.influx_client self = true ->
          query_candles (influx p) symbol interval limit = Returns tables ->
          concat tables = [] ->
          log (snd (get_candles_from_influx self symbol interval limit p))
          = (log p
             ++ [(INFO,
                  "Retrieved 0 candles from InfluxDB for " +:+ symbol
                  +:+ " " +:+ interval)])%list).
Proof.
  intros symbol interval limit p.
  split; [apply get_candles_from_influx_empty|].
  split; [apply get_candles_from_influx_frame|].
  split; intros tables Hclient Htables Hrows;
    unfold get_candles_from_influx; rewrite Hclient; run; rewrite Htables.
  - rewrite (candles_of_rows_raises symbol interval _ Hrows). reflexivity.
  - rewrite Hrows. reflexivity.
Qed.

(** X17. A store that fails does not fail [get_chart_candles]: when the
    client is missing or the candle query raises, the store result is empty,
    and if the exchange gives candles the answer is those candles tagged
    [binance]. *)
Theorem get_chart_candles_survives_store_failure :
  forall (symbol interval : string) (limit : Z) (p : process S),
    let fetched := exchange_candles binance symbol interval limit in
    DataAdapter.influx_client self = false
    \/ (exists e, query_candles (influx p) symbol interval limit = Raises e) ->
    fst (get_candles_from_influx self symbol interval limit p) = []
    /\ (fetched <> [] ->
        fst (get_chart_candles self binance symbol interval limit p)
        = Response {| CandlesResponse.candles := fetched;
                      CandlesResponse.symbol := symbol;
                      CandlesResponse.interval := interval;
                      CandlesResponse.count := len fetched;
                      CandlesResponse.source := "binance" |}).
Proof.
  intros symbol interval limit p fetched Hdown.
  assert (Hnil : fst (get_candles_from_influx self symbol interval limit p) = []).
  { unfold get_candles_from_influx.
    destruct Hdown as [Hoff|(e & He)].
    - rewrite Hoff. reflexivity.
    - destruct (DataAdapter.influx_client self); [|reflexivity].
      run. rewrite He. reflexivity. }
  split; [exact Hnil|]. intros Hne.
  destruct (get_chart_candles_run symbol interval limit p) as (Hans & _).
  rewrite Hans. fold fetched. destruct fetched; [congruence|reflexivity].
Qed.

(** X18. A store that cannot be counted counts as empty: when the client is
    missing, the count query raises, or it answers without a record, the
    count read is 0, and [backfill_candles] then goes to the exchange with
    the request's [limit]. *)
Theorem uncounted_store_is_backfilled :
  forall (request : BackfillRequest.t) (p : process S),
    DataAdapter.influx_client self = false
    \/ (exists e, query_candle_count (influx p) (BackfillRequest.symbol request)
                    (BackfillRequest.interval request) 24 = Raises e)
    \/ (exists tables,
          query_candle_count (influx p) (BackfillRequest.symbol request)
            (BackfillRequest.interval request) 24 = Returns tables
          /\ first_record tables = None) ->
    fst (check_influx_candle_count self (BackfillRequest.symbol request)
           (BackfillRequest.interval request) 24 p) = 0
    /\ exchange_calls (calls (snd (backfill_candles self binance request p)))
       = Datatypes.S (exchange_calls (calls p))
    /\ In (GetKlines (BackfillRequest.symbol request)
             (BackfillRequest.interval request) (BackfillRequest.limit request))
          (calls (snd (backfill_candles self binance request p))).
Proof.
  intros request p Hdown.
  assert (Hzero :
    fst (check_influx_candle_count self (BackfillRequest.symbol request)
           (BackfillRequest.interval request) 24 p) = 0).
  { unfold check_influx_candle_count.
    destruct Hdown as [Hoff|[(e & He)|(tables & Ht & Hfirst)]].
    - rewrite Hoff. reflexivity.
    - destruct (DataAdapter.influx_client self); [|reflexivity].
      run. rewrite He. reflexivity.
    - destruct (DataAdapter.influx_client self); [|reflexivity].
      run. rewrite Ht. simpl. rewrite Hfirst. reflexivity. }
  split; [exact Hzero|].
  destruct (check_influx_candle_count_frame self (BackfillRequest.symbol request)
              (BackfillRequest.interval request) 24 p) as [_ Hcalls].
  unfold backfill_candles, bind.
  destruct (check_influx_candle_count self (BackfillRequest.symbol request)
              (BackfillRequest.interval request) 24 p) as [n q1].
  simpl in Hzero, Hcalls. subst n. simpl.
  destruct (get_candles_from_binance_run binance (BackfillRequest.symbol request)
              (BackfillRequest.interval request) (BackfillRequest.limit request) q1)
    as (_ & _ & Hqcalls & _).
  destruct (get_candles_from_binance binance (BackfillRequest.symbol request)
              (BackfillRequest.interval request) (BackfillRequest.limit request) q1)
    as [fc q2].
  simpl in Hqcalls.
  assert (Hin : In (GetKlines (BackfillRequest.symbol request)
                      (BackfillRequest.interval request)
                      (BackfillRequest.limit request)) (calls q2)).
  { rewrite Hqcalls. apply in_or_app. right. left. reflexivity. }
  assert (Hone : exchange_calls (calls q2) = Datatypes.S (exchange_calls (calls p))).
  { rewrite Hqcalls, exchange_calls_exchange by reflexivity.
    rewrite Hcalls. reflexivity. }
  destruct fc as [|c fc]; simpl; [split; assumption|].
  pose proof (write_candles_to_influx_calls self (c :: fc) q2 _ Hin) as Hin'.
  destruct (write_candles_to_influx_run self (c :: fc) q2) as (Hw & _).
  destruct (write_candles_to_influx self (c :: fc) q2) as [w q3].
  simpl in *. split; [congruence|exact Hin'].
Qed.

End MoreDataProperties.

(** * Properties of the markets endpoint *)

Lemma SFcompare_key (x y : SpecFloat.spec_float) :
  SpecFloat.SFcompare x y
  = match sf_key x, sf_key y with
    | Some k, Some k' => Some (lex_compare k k')
    | _, _ => None
    end.
Proof.
  destruct x as [s1|s1| |s1 m1 e1], y as [s2|s2| |s2 m2 e2]; simpl;
    try reflexivity;
    try (destruct s1; reflexivity); try (destruct s2; reflexivity);
    try (destruct s1, s2; reflexivity).
  destruct s1, s2; simpl; try reflexivity.
  rewrite Z.compare_opp, (Z.compare_antisym e1 e2).
  destruct (e1 ?= e2); reflexivity.
Qed.

Lemma lex_compare_le_trans (k1 k2 k3 : Z * Z * Z) :
  lex_compare k1 k2 <> Gt -> lex_compare k2 k3 <> Gt -> lex_compare k1 k3 <> Gt.
Proof.
  destruct k1 as [[a1 b1] c1], k2 as [[a2 b2] c2], k3 as [[a3 b3] c3].
  unfold lex_compare.
  destruct (Z.compare_spec a1 a2), (Z.compare_spec a2 a3), (Z.compare_spec a1 a3);
    try lia; try congruence;
    destruct (Z.compare_spec b1 b2), (Z.compare_spec b2 b3), (Z.compare_spec b1 b3);
    try lia; try congruence;
    destruct (Z.compare_spec c1 c2), (Z.compare_spec c2 c3), (Z.compare_spec c1 c3);
    try lia; congruence.
Qed.

Lemma lex_compare_antisym (k1 k2 : Z * Z * Z) :
  lex_compare k2 k1 = CompOpp (lex_compare k1 k2).
Proof.
  destruct k1 as [[a1 b1] c1], k2 as [[a2 b2] c2]. unfold lex_compare.
  rewrite (Z.compare_antisym a1 a2), (Z.compare_antisym b1 b2),
    (Z.compare_antisym c1 c2).
  destruct (a1 ?= a2), (b1 ?= b2), (c1 ?= c2); reflexivity.
Qed.

Lemma is_nan_key (x : float) :
  PrimFloat.is_nan x = false -> exists k, sf_key (FloatOps.Prim2SF x) = Some k.
Proof.
  unfold PrimFloat.is_nan. rewrite FloatAxioms.eqb_spec.
  unfold SpecFloat.SFeqb. rewrite SFcompare_key.
  destruct (sf_key (FloatOps.Prim2SF x)) as [k|]; [|discriminate].
  intros _. exists k. reflexivity.
Qed.

Lemma ltb_leb (x y : float) :
  PrimFloat.ltb x y = true -> PrimFloat.leb x y = true.
Proof.
  rewrite FloatAxioms.ltb_spec, FloatAxioms.leb_spec.
  unfold SpecFloat.SFltb, SpecFloat.SFleb.
  destruct (SpecFloat.SFcompare (FloatOps.Prim2SF x) (FloatOps.Prim2SF y))
    as [[| |]|]; congruence.
Qed.

Lemma not_ltb_leb (x y : float) :
  PrimFloat.is_nan x = false -> PrimFloat.is_nan y = false ->
  PrimFloat.ltb x y = false -> PrimFloat.leb y x = true.
Proof.
  intros Hx Hy. destruct (is_nan_key x Hx) as [kx Hkx].
  destruct (is_nan_key y Hy) as [ky Hky].
  rewrite FloatAxioms.ltb_spec, FloatAxioms.leb_spec.
  unfold SpecFloat.SFltb, SpecFloat.SFleb.
  rewrite !SFcompare_key, Hkx, Hky, (lex_compare_antisym kx ky).
  destruct (lex_compare kx ky); simpl; congruence.
Qed.

Lemma leb_trans (x y z : float) :
  PrimFloat.leb x y = true -> PrimFloat.leb y z = true -> PrimFloat.leb x z = true.
Proof.
  rewrite !FloatAxioms.leb_spec. unfold SpecFloat.SFleb.
  rewrite !SFcompare_key.
  destruct (sf_key (FloatOps.Prim2SF x)) as [kx|]; [|discriminate].
  destruct (sf_key (FloatOps.Prim2SF y)) as [ky|]; [|discriminate].
  destruct (sf_key (FloatOps.Prim2SF z)) as [kz|]; [|discriminate].
  intros Hxy Hyz.
  pose proof (lex_compare_le_trans kx ky kz) as Htrans.
  destruct (lex_compare kx ky); try discriminate;
    destruct (lex_compare ky kz); try discriminate;
    destruct (lex_compare kx kz); try reflexivity;
    exfalso; apply Htrans; congruence.
Qed.

Lemma insert_by_volume_perm (x : MarketData.t) (l : list MarketData.t) :
  insert_by_volume x l ≡ₚ x :: l.
Proof.
  induction l as [|y l IH]; simpl; [reflexivity|].
  destruct (PrimFloat.ltb (MarketData.volume x) (MarketData.volume y));
    [|reflexivity].
  rewrite IH. apply Permutation_swap.
Qed.

Lemma sort_by_volume_perm (l : list MarketData.t) : sort_by_volume l ≡ₚ l.
Proof.
  induction l as [|x l IH]; simpl; [reflexivity|].
  rewrite insert_by_volume_perm, IH. reflexivity.
Qed.

(** The stable sort is a [list.sort]. *)
#[export] Instance stable_sort : ListSort := {
  sort_markets := sort_by_volume;
  sort_markets_permutes := sort_by_volume_perm;
  sort_markets_stable := fun markets _ => eq_refl
}.

Lemma no_nan_volume_Forall (l : list MarketData.t) :
  no_nan_volume l = true
  <-> Forall (fun m => PrimFloat.is_nan (MarketData.volume m) = false) l.
Proof.
  unfold no_nan_volume. induction l as [|x l IH]; simpl.
  - split; [constructor|reflexivity].
  - rewrite andb_true_iff, negb_true_iff, IH. split.
    + intros [Hx Hl]. constructor; assumption.
    + intros Hall. apply Forall_cons in Hall. exact Hall.
Qed.

Lemma insert_by_volume_strongly_sorted (x : MarketData.t)
    (l : list MarketData.t) :
  PrimFloat.is_nan (MarketData.volume x) = false ->
  Forall (fun m => PrimFloat.is_nan (MarketData.volume m) = false) l ->
  StronglySorted at_least l -> StronglySorted at_least (insert_by_volume x l).
Proof.
  intros Hx. induction l as [|y l IH]; intros Hnan Hsorted; simpl.
  - repeat constructor.
  - apply Forall_cons in Hnan as [Hy Hl].
    apply StronglySorted_inv in Hsorted as [Hsl Hyl].
    destruct (PrimFloat.ltb (MarketData.volume x) (MarketData.volume y))
      eqn:Hxy.
    + constructor; [apply IH; assumption|].
      rewrite insert_by_volume_perm. constructor; [|exact Hyl].
      apply ltb_leb. exact Hxy.
    + constructor; [constructor; assumption|].
      assert (Hyx : at_least x y) by (apply not_ltb_leb; assumption).
      constructor; [exact Hyx|].
      apply (Forall_impl _ _ _ Hyl). intros z Hz.
      exact (leb_trans _ _ _ Hz Hyx).
Qed.

Lemma sort_by_volume_strongly_sorted (l : list MarketData.t) :
  Forall (fun m => PrimFloat.is_nan (MarketData.volume m) = false) l ->
  StronglySorted at_least (sort_by_volume l).
Proof.
  induction l as [|x l IH]; intros Hnan; simpl; [constructor|].
  apply Forall_cons in Hnan as [Hx Hl].
  apply insert_by_volume_strongly_sorted; [exact Hx| |apply IH; exact Hl].
  rewrite sort_by_volume_perm. exact Hl.
Qed.

Lemma take_strongly_sorted {A} (R : A -> A -> Prop) (n : nat) (l : list A) :
  StronglySorted R l -> StronglySorted R (take n l).
Proof.
  revert n. induction l as [|x l IH]; intros n Hsorted.
  - destruct n; constructor.
  - destruct n as [|n]; simpl; [constructor|].
    apply StronglySorted_inv in Hsorted as [Hl Hxl].
    constructor; [apply IH; exact Hl|]. apply Forall_take. exact Hxl.
Qed.

Lemma market_of_ticker_returns (now : datetime) (ticker : Ticker24hr.t)
    (market : MarketData.t) :
  market_of_ticker now ticker = Returns market ->
  MarketData.symbol market = Ticker24hr.symbol ticker
  /\ Ticker24hr.lastPrice ticker = Returns (MarketData.lastPrice market)
  /\ Ticker24hr.priceChange ticker = Returns (MarketData.priceChange market)
  /\ Ticker24hr.priceChangePercent ticker
     = Returns (MarketData.priceChangePercent market)
  /\ Ticker24hr.volume ticker = Returns (MarketData.volume market)
  /\ MarketData.timestamp market = now.
Proof.
  unfold market_of_ticker.
  destruct (Ticker24hr.lastPrice ticker); [|discriminate].
  destruct (Ticker24hr.priceChange ticker); [|discriminate].
  destruct (Ticker24hr.priceChangePercent ticker); [|discriminate].
  destruct (Ticker24hr.volume ticker); [|discriminate].
  intros Heq. injection Heq as <-. repeat split.
Qed.

Lemma market_of_ticker_converts (now : datetime) (ticker : Ticker24hr.t) :
  (converts ticker = true -> exists market, market_of_ticker now ticker = Returns market)
  /\ (converts ticker = false -> exists e, market_of_ticker now ticker = Raises e).
Proof.
  unfold converts, market_of_ticker.
  destruct (Ticker24hr.lastPrice ticker);
    destruct (Ticker24hr.priceChange ticker);
    destruct (Ticker24hr.priceChangePercent ticker);
    destruct (Ticker24hr.volume ticker);
    split; intros Hc; try discriminate Hc; eexists; reflexivity.
Qed.

Lemma collect_markets_returns (stamp : nat -> datetime) (symbols : list string)
    (tickers : list Ticker24hr.t) (acc markets : list MarketData.t) :
  collect_markets stamp symbols tickers acc = Returns markets ->
  exists new,
    markets = (acc ++ new)%list
    /\ Forall2 (fun ticker market =>
                  exists now, market_of_ticker now ticker = Returns market)
         (asked_for symbols tickers) new.
Proof.
  revert acc. induction tickers as [|t tickers IH]; intros acc; simpl.
  - intros Heq. injection Heq as <-. exists []. rewrite app_nil_r.
    split; [reflexivity|constructor].
  - destruct (symbol_in symbols t) eqn:Hin.
    + destruct (market_of_ticker (stamp (length acc)) t) as [m|e] eqn:Hm;
        [|discriminate].
      intros Hrest. destruct (IH _ Hrest) as (new & -> & Hall).
      exists (m :: new). rewrite <- app_assoc. split; [reflexivity|].
      constructor; [eexists; exact Hm|exact Hall].
    + intros Hrest. exact (IH _ Hrest).
Qed.

Lemma collect_markets_converts (stamp : nat -> datetime) (symbols : list string)
    (tickers : list Ticker24hr.t) (acc : list MarketData.t) :
  (forall t, In t tickers -> symbol_in symbols t = true -> converts t = true) ->
  exists markets, collect_markets stamp symbols tickers acc = Returns markets.
Proof.
  revert acc. induction tickers as [|t tickers IH]; intros acc Hall; simpl.
  - eexists. reflexivity.
  - destruct (symbol_in symbols t) eqn:Hin.
    + destruct (proj1 (market_of_ticker_converts (stamp (length acc)) t)
                  (Hall t (or_introl eq_refl) Hin)) as [m Hm].
      rewrite Hm. apply IH. intros t' Ht'. apply Hall. right. exact Ht'.
    + apply IH. intros t' Ht'. apply Hall. right. exact Ht'.
Qed.

Lemma collect_markets_raises (stamp : nat -> datetime) (symbols : list string)
    (tickers : list Ticker24hr.t) (acc : list MarketData.t) (t : Ticker24hr.t) :
  In t tickers -> symbol_in symbols t = true -> converts t = false ->
  exists e, collect_markets stamp symbols tickers acc = Raises e.
Proof.
  revert acc. induction tickers as [|t' tickers IH]; intros acc Hin Hsym Hbad;
    [destruct Hin|]. simpl.
  destruct Hin as [->|Hin].
  - rewrite Hsym.
    destruct (proj2 (market_of_ticker_converts (stamp (length acc)) t) Hbad)
      as [e He].
    rewrite He. exists e. reflexivity.
  - destruct (symbol_in symbols t').
    + destruct (market_of_ticker (stamp (length acc)) t') as [m|e].
      * apply IH; assumption.
      * exists e. reflexivity.
    + apply IH; assumption.
Qed.

Lemma symbol_in_In (symbols : list string) (t : Ticker24hr.t) :
  symbol_in symbols t = true <-> In (Ticker24hr.symbol t) symbols.
Proof.
  unfold symbol_in. rewrite existsb_exists. split.
  - intros (s & Hs & Heq). apply String.eqb_eq in Heq. subst s. exact Hs.
  - intros Hs. exists (Ticker24hr.symbol t). split; [exact Hs|].
    apply String.eqb_refl.
Qed.

Section Markets.
Context {S : Type} `{ListSort}.

Lemma get_markets_from_binance_frame (all_tickers : outcome (list Ticker24hr.t))
    (stamp : nat -> datetime) (symbols : list string) (p : process S) :
  influx (snd (get_markets_from_binance all_tickers stamp symbols p)) = influx p.
Proof.
  unfold get_markets_from_binance.
  destruct all_tickers as [tickers|e]; [|reflexivity].
  destruct (collect_markets stamp symbols tickers []); reflexivity.
Qed.

Lemma get_markets_from_binance_cases (all_tickers : outcome (list Ticker24hr.t))
    (stamp : nat -> datetime) (symbols : list string) (p : process S) :
  (fst (get_markets_from_binance all_tickers stamp symbols p) = []
   /\ ((exists e, all_tickers = Raises e)
       \/ exists tickers e,
            all_tickers = Returns tickers
            /\ collect_markets stamp symbols tickers [] = Raises e))
  \/ exists tickers collected,
       all_tickers = Returns tickers
       /\ collect_markets stamp symbols tickers [] = Returns collected
       /\ fst (get_markets_from_binance all_tickers stamp symbols p)
          = take 20 (sort_markets collected).
Proof.
  unfold get_markets_from_binance.
  destruct all_tickers as [tickers|e].
  - destruct (collect_markets stamp symbols tickers []) as [collected|e] eqn:Hc.
    + right. exists tickers, collected.
      split; [reflexivity|]. split; [exact Hc|]. reflexivity.
    + left. split; [reflexivity|]. right. exists tickers, e.
      split; [reflexivity|exact Hc].
  - left. split; [reflexivity|]. left. exists e. reflexivity.
Qed.

Lemma collected_market_origin (stamp : nat -> datetime) (symbols : list string)
    (tickers : list Ticker24hr.t) (collected : list MarketData.t)
    (market : MarketData.t) :
  collect_markets stamp symbols tickers [] = Returns collected ->
  In market collected ->
  exists ticker now,
    In ticker tickers /\ symbol_in symbols ticker = true
    /\ market_of_ticker now ticker = Returns market.
Proof.
  intros Hcollect Hin.
  destruct (collect_markets_returns _ _ _ _ _ Hcollect) as (new & Heq & Hall).
  simpl in Heq. subst new.
  apply list_elem_of_In, list_elem_of_lookup in Hin as [i Hi].
  destruct (Forall2_lookup_r _ _ _ _ _ Hall Hi) as (ticker & Ht & now & Hm).
  exists ticker, now.
  assert (Hfilter : In ticker (asked_for symbols tickers)).
  { apply list_elem_of_In, list_elem_of_lookup. exists i. exact Ht. }
  apply filter_In in Hfilter as [Hin Hsym].
  split; [exact Hin|]. split; [exact Hsym|exact Hm].
Qed.

(** X19. [get_markets_from_binance] gives at most 20 markets; each has a
    symbol among those asked for and repeats the symbol and the four numbers
    of a ticker of the exchange's answer; and the store is not touched. *)
Theorem get_markets_from_binance_top_twenty :
  forall (all_tickers : outcome (list Ticker24hr.t)) (stamp : nat -> datetime)
         (symbols : list string) (p : process S),
    let markets := fst (get_markets_from_binance all_tickers stamp symbols p) in
    (length markets <= 20)%nat
    /\ (forall market, In market markets ->
          In (MarketData.symbol market) symbols
          /\ exists tickers ticker,
               all_tickers = Returns tickers
               /\ In ticker tickers
               /\ Ticker24hr.symbol ticker = MarketData.symbol market
               /\ Ticker24hr.lastPrice ticker
                  = Returns (MarketData.lastPrice market)
               /\ Ticker24hr.priceChange ticker
                  = Returns (MarketData.priceChange market)
               /\ Ticker24hr.priceChangePercent ticker
                  = Returns (MarketData.priceChangePercent market)
               /\ Ticker24hr.volume ticker = Returns (MarketData.volume market))
    /\ influx (snd (get_markets_from_binance all_tickers stamp symbols p))
       = influx p.
Proof.
  intros all_tickers stamp symbols p markets.
  split; [|split; [|apply get_markets_from_binance_frame]].
  - destruct (get_markets_from_binance_cases all_tickers stamp symbols p)
      as [[Hnil _]|(tickers & collected & _ & _ & Hmarkets)];
      fold markets in Hnil || fold markets in Hmarkets.
    + rewrite Hnil. simpl. lia.
    + rewrite Hmarkets, length_take. lia.
  - intros market Hin.
    destruct (get_markets_from_binance_cases all_tickers stamp symbols p)
      as [[Hnil _]|(tickers & collected & Hall & Hcollect & Hmarkets)];
      fold markets in Hnil || fold markets in Hmarkets.
    + rewrite Hnil in Hin. destruct Hin.
    + rewrite Hmarkets in Hin.
      assert (Hcollected : In market collected).
      { apply list_elem_of_In. apply list_elem_of_In in Hin.
        apply subseteq_take in Hin.
        rewrite sort_markets_permutes in Hin. exact Hin. }
      destruct (collected_market_origin _ _ _ _ _ Hcollect Hcollected)
        as (ticker & now & Hticker & Hsym & Hm).
      destruct (market_of_ticker_returns _ _ _ Hm)
        as (Hs & Hlast & Hchange & Hpercent & Hvol & _).
      split.
      * rewrite Hs. apply symbol_in_In. exact Hsym.
      * exists tickers, ticker. repeat split; try assumption.
        symmetry. exact Hs.
Qed.

(** X20. When none of the tickers asked for has NaN for its volume, the
    markets come highest volume first: the volume of every market in the
    list is at least that of every market after it. *)
Theorem get_markets_highest_volume_first :
  forall (all_tickers : outcome (list Ticker24hr.t)) (stamp : nat -> datetime)
         (symbols : list string) (p : process S),
    (forall tickers ticker v,
       all_tickers = Returns tickers -> In ticker tickers ->
       In (Ticker24hr.symbol ticker) symbols ->
       Ticker24hr.volume ticker = Returns v -> PrimFloat.is_nan v = false) ->
    StronglySorted at_least
      (fst (get_markets_from_binance all_tickers stamp symbols p)).
Proof.
  intros all_tickers stamp symbols p Hnan.
  destruct (get_markets_from_binance_cases all_tickers stamp symbols p)
    as [[Hnil _]|(tickers & collected & Hall & Hcollect & Hmarkets)].
  - rewrite Hnil. constructor.
  - assert (Hcollected :
      Forall (fun m => PrimFloat.is_nan (MarketData.volume m) = false) collected).
    { apply Forall_forall. intros market Hin. apply list_elem_of_In in Hin.
      destruct (collected_market_origin _ _ _ _ _ Hcollect Hin)
        as (ticker & now & Hticker & Hsym & Hm).
      destruct (market_of_ticker_returns _ _ _ Hm)
        as (_ & _ & _ & _ & Hvol & _).
      apply (Hnan tickers ticker _ Hall Hticker); [|exact Hvol].
      apply symbol_in_In. exact Hsym. }
    rewrite Hmarkets.
    rewrite (sort_markets_stable collected)
      by (apply no_nan_volume_Forall; exact Hcollected).
    apply take_strongly_sorted. apply sort_by_volume_strongly_sorted.
    exact Hcollected.
Qed.

(** X21. The market list is all or nothing.  When the request raises the
    list is empty; when a single ticker with a symbol asked for has a number
    that does not convert the list is empty as well, whatever the other
    tickers hold; and when every such ticker converts, the list holds as many
    markets as there are tickers asked for, up to 20.  Tickers of other
    symbols never matter. *)
Theorem get_markets_all_or_nothing :
  forall (all_tickers : outcome (list Ticker24hr.t)) (stamp : nat -> datetime)
         (symbols : list string) (p : process S),
    let markets := fst (get_markets_from_binance all_tickers stamp symbols p) in
    ((exists e, all_tickers = Raises e) -> markets = [])
    /\ (forall tickers ticker,
          all_tickers = Returns tickers -> In ticker tickers ->
          In (Ticker24hr.symbol ticker) symbols -> converts ticker = false ->
          markets = [])
    /\ (forall tickers,
          all_tickers = Returns tickers ->
          (forall ticker, In ticker tickers ->
             In (Ticker24hr.symbol ticker) symbols -> converts ticker = true) ->
          length markets
          = Nat.min 20 (length (asked_for symbols tickers))).
Proof.
  intros all_tickers stamp symbols p markets. subst markets.
  unfold get_markets_from_binance. split; [|split].
  - intros [e ->]. reflexivity.
  - intros tickers ticker -> Hin Hsym Hbad.
    apply symbol_in_In in Hsym.
    destruct (collect_markets_raises stamp symbols tickers [] ticker Hin Hsym Hbad)
      as [e He].
    rewrite He. reflexivity.
  - intros tickers -> Hgood.
    destruct (collect_markets_converts stamp symbols tickers [])
      as [collected Hcollect].
    { intros t Ht Hsym. apply (Hgood t Ht). apply symbol_in_In. exact Hsym. }
    rewrite Hcollect. simpl.
    destruct (collect_markets_returns _ _ _ _ _ Hcollect) as (new & Heq & Hall).
    simpl in Heq. subst new.
    rewrite length_take, sort_markets_permutes.
    rewrite (Forall2_length _ _ _ Hall). reflexivity.
Qed.

(** X22. [get_markets] answers 503 "Unable to fetch market data" exactly
    when [get_markets_from_binance] gives no market for the default symbols;
    otherwise the response holds those markets, its [count] is their number,
    between 1 and 20, and its timestamp is the clock reading of the
    endpoint.  The store is left as it was. *)
Theorem get_markets_answers_or_503 :
  forall (all_tickers : outcome (list Ticker24hr.t)) (stamp : nat -> datetime)
         (now : datetime) (p : process S),
    let markets :=
      fst (get_markets_from_binance all_tickers stamp default_symbols p) in
    let answer := fst (get_markets all_tickers stamp now p) in
    (markets = [] ->
     answer = HTTPException 503 "Unable to fetch market data")
    /\ (markets <> [] ->
        answer = Response {| MarketsResponse.markets := markets;
                             MarketsResponse.timestamp := now;
                             MarketsResponse.count := len markets |}
        /\ 1 <= len markets <= 20)
    /\ influx (snd (get_markets all_tickers stamp now p)) = influx p.
Proof.
  intros all_tickers stamp now p markets answer.
  pose proof (get_markets_from_binance_frame all_tickers stamp default_symbols p)
    as Hstore.
  assert (Hlen : (length markets <= 20)%nat).
  { destruct (get_markets_from_binance_cases all_tickers stamp default_symbols p)
      as [[Hnil _]|(tickers & collected & _ & _ & Hmarkets)];
      fold markets in Hnil || fold markets in Hmarkets.
    - rewrite Hnil. simpl. lia.
    - rewrite Hmarkets, length_take. lia. }
  unfold answer, get_markets, bind. fold markets.
  destruct (get_markets_from_binance all_tickers stamp default_symbols p)
    as [ms q] eqn:Hrun.
  simpl in markets, Hstore. subst markets.
  destruct ms as [|m ms]; simpl.
  - split; [reflexivity|]. split; [congruence|]. exact Hstore.
  - split; [discriminate|]. split; [|exact Hstore].
    intros _. split; [reflexivity|]. unfold len. simpl in Hlen |- *. lia.
Qed.

End Markets.

(** * Repeated requests and the further properties on sample data *)

Section Repeated.
Context {S : Type} `{InfluxDB S}.
Variable self : DataAdapter.t.
Variable binance : Binance.


End Repeated.

(** The one candle of the sample exchange, as a response. *)
Lemma get_chart_candles_response_never_empty_witness :
  1 <= CandlesResponse.count
         {| CandlesResponse.candles :=
              [candle_of_kline "BTCUSDT" "1m" (sample_kline (1699999920 * 1000))];
            CandlesResponse.symbol := "BTCUSDT";
            CandlesResponse.interval := "1m";
            CandlesResponse.count := 1;
            CandlesResponse.source := "binance" |}.
Proof.
  assert (Hanswer :
    fst (get_chart_candles adapter_up binance_up "BTCUSDT" "1m" 1
           (start_process empty_store))
    = Response
        {| CandlesResponse.candles :=
             [candle_of_kline "BTCUSDT" "1m" (sample_kline (1699999920 * 1000))];
           CandlesResponse.symbol := "BTCUSDT";
           CandlesResponse.interval := "1m";
           CandlesResponse.count := 1;
           CandlesResponse.source := "binance" |})
    by (vm_compute; reflexivity).
  destruct (get_chart_candles_response_never_empty adapter_up binance_up
              "BTCUSDT" "1m" 1 (start_process empty_store) _ Hanswer)
    as (_ & _ & Hone & _).
  exact Hone.
Defined.

(** Without a write API the backfill of the sample candle succeeds with
    nothing written. *)
Lemma backfill_success_with_nothing_written_witness :
  fst (backfill_candles adapter_without_write_api binance_up one_candle_request
         (start_process empty_store))
  = Response
      {| BackfillResponse.symbol := "BTCUSDT";
         BackfillResponse.interval := "1m";
         BackfillResponse.candlesWritten := 0;
         BackfillResponse.status := "success";
         BackfillResponse.message := "Successfully backfilled 0 candles" |}.
Proof.
  apply (backfill_success_with_nothing_written adapter_without_write_api
           binance_up one_candle_request (start_process empty_store)).
  - vm_compute. reflexivity.
  - vm_compute. discriminate.
  - left. reflexivity.
Defined.

Lemma binance_candles_in_whole_seconds_witness :
  length (fst (get_candles_from_binance binance_up "BTCUSDT" "1m" 1
                 (start_process empty_store))) = 1%nat.
Proof.
  destruct (binance_candles_in_whole_seconds binance_up "BTCUSDT" "1m" 1
              (start_process empty_store)
              [sample_kline (1699999920 * 1000)] eq_refl) as [Hlen _].
  exact Hlen.
Defined.

(** With the store unreachable the chart is served from the exchange. *)
Lemma get_chart_candles_survives_store_failure_witness :
  fst (get_candles_from_influx adapter_up "BTCUSDT" "1m" 1
         (start_process unreachable_store)) = []
  /\ fst (get_chart_candles adapter_up binance_up "BTCUSDT" "1m" 1
            (start_process unreachable_store))
     = Response
         {| CandlesResponse.candles :=
              [candle_of_kline "BTCUSDT" "1m" (sample_kline (1699999920 * 1000))];
            CandlesResponse.symbol := "BTCUSDT";
            CandlesResponse.interval := "1m";
            CandlesResponse.count := 1;
            CandlesResponse.source := "binance" |}.
Proof.
  assert (Hdown :
    DataAdapter.influx_client adapter_up = false
    \/ (exists e, query_candles (influx (start_process unreachable_store))
                    "BTCUSDT" "1m" 1 = Raises e))
    by (right; exists "Connection refused"; reflexivity).
  destruct (get_chart_candles_survives_store_failure adapter_up binance_up
              "BTCUSDT" "1m" 1 (start_process unreachable_store) Hdown)
    as [Hnil Hanswer].
  split; [exact Hnil|]. apply Hanswer. vm_compute. discriminate.
Defined.

(** With the store unreachable the backfill goes to the exchange. *)
Lemma uncounted_store_is_backfilled_witness :
  exchange_calls
    (calls (snd (backfill_candles adapter_up binance_up one_candle_request
                   (start_process unreachable_store)))) = 1%nat.
Proof.
  assert (Hdown :
    DataAdapter.influx_client adapter_up = false
    \/ (exists e,
          query_candle_count (influx (start_process unreachable_store))
            (BackfillRequest.symbol one_candle_request)
            (BackfillRequest.interval one_candle_request) 24 = Raises e)
    \/ (exists tables,
          query_candle_count (influx (start_process unreachable_store))
            (BackfillRequest.symbol one_candle_request)
            (BackfillRequest.interval one_candle_request) 24 = Returns tables
          /\ first_record tables = None))
    by (right; left; exists "Connection refused"; reflexivity).
  destruct (uncounted_store_is_backfilled adapter_up binance_up
              one_candle_request (start_process unreachable_store) Hdown)
    as (_ & Hone & _).
  exact Hone.
Defined.

(** The two tracked sample tickers, by volume. *)
Lemma get_markets_highest_volume_first_witness :
  StronglySorted at_least
    (fst (get_markets_from_binance (Returns sample_tickers)
            (fun k => t0 + Z.of_nat k) default_symbols
            (start_process empty_store))).
Proof.
  apply (get_markets_highest_volume_first (Returns sample_tickers)
           (fun k => t0 + Z.of_nat k) default_symbols
           (start_process empty_store)).
  intros tickers ticker v Heq Hin Hsym Hvol. injection Heq as <-.
  destruct Hin as [<-|[<-|[<-|[]]]]; injection Hvol as <-;
    vm_compute; reflexivity.
Defined.
